(** * WeatherWise-Pro: the best-window search of [get_data.py]

    A shallow embedding of [get_historical_data_for_event] (the part that
    turns a decoded NASA POWER payload into a data frame) and of
    [find_best_dates] (the bounded search for the least risky window),
    followed by the properties the design document states about them.

    Modelling choices, all read off the source:
    - a [datetime.date] is its proleptic Gregorian ordinal
      ([date.toordinal()]), an integer between 1 and 3652059; adding a
      [timedelta] outside that range raises [OverflowError];
    - a JSON number is a rational ([Q]); [>] and [!=] on the finite values
      the API returns agree with the comparisons on rationals;
    - a [pandas.DataFrame] is the list of its rows, [df.empty] holds
      exactly when there is no row;
    - the remote service and the clock are a world [W] that every fetch
      reads and changes; exceptions are an explicit result.

    The later parts embed [simulate_future_forecast] (random draws are
    read from a state), [get_immediate_forecast], [clean_text_for_pdf] (a
    [str] is the list of its code points) and the recommendation texts of
    [add_location_section]. *)

From Stdlib Require Import ZArith QArith Lia.
From stdpp Require Import base tactics option list list_numbers strings gmap.
From Stdlib Require Import Qround.

Local Open Scope Z_scope.

(* ===================================================================== *)
(** * Dates and time deltas *)
(* ===================================================================== *)

Definition date := Z.

Definition MINORDINAL : Z := 1.
Definition MAXORDINAL : Z := 3652059.
Definition MAX_DELTA_DAYS : Z := 999999999.

Definition valid_date (d : date) : Prop := MINORDINAL <= d <= MAXORDINAL.

Inductive Exn : Type := OverflowError.

Inductive Res (A : Type) : Type :=
| Ok (a : A)
| Raise (e : Exn).
Arguments Ok {A} a.
Arguments Raise {A} e.

(** [timedelta(days=n)] *)
Definition timedelta (days : Z) : Res Z :=
  if Z.abs days <=? MAX_DELTA_DAYS then Ok days else Raise OverflowError.

(** [d + td] for a date [d] and a delta of [td] days *)
Definition date_add (d : date) (td : Z) : Res date :=
  let o := d + td in
  if (MINORDINAL <=? o) && (o <=? MAXORDINAL) then Ok o else Raise OverflowError.

(** [(a - b).days] *)
Definition days_between (a b : date) : Z := a - b.

(** [range(lo, hi)] *)
Definition range (lo hi : Z) : list Z := seqZ lo (hi - lo).

(* ===================================================================== *)
(** * Data frames *)
(* ===================================================================== *)

Record Row : Type := mkRow {
  date_str : string;
  temperature_2m_max : Q;
  precipitation_sum : Q
}.

Abbreviation DataFrame := (list Row) (only parsing).

(** [df.empty] *)
Definition empty (df : DataFrame) : bool :=
  match df with
  | [] => true
  | _ :: _ => false
  end.

(** [df[col]] *)
Definition column (col : Row -> Q) (df : DataFrame) : list Q := map col df.

(** [series > thresh], element-wise *)
Definition Qgtb (x y : Q) : bool := negb (Qle_bool x y).
Definition series_gt (s : list Q) (thresh : Q) : list bool :=
  map (fun x => Qgtb x thresh) s.

(** [mask.sum()] *)
Fixpoint series_sum (mask : list bool) : Z :=
  match mask with
  | [] => 0
  | b :: rest => (if b then 1 else 0) + series_sum rest
  end.

(* ===================================================================== *)
(** * The computation monad: a world and exceptions *)
(* ===================================================================== *)

Definition M (W A : Type) : Type := W -> Res A * W.

Definition ret {W A} (a : A) : M W A := fun w => (Ok a, w).

Definition bind {W A B} (m : M W A) (k : A -> M W B) : M W B :=
  fun w =>
    match m w with
    | (Ok a, w') => k a w'
    | (Raise e, w') => (Raise e, w')
    end.

Definition lift {W A} (r : Res A) : M W A := fun w => (r, w).

(** [try: m  except Exception: handler] with a handler that cannot raise *)
Definition try_except {W A} (m : M W A) (handler : Exn -> A) : W -> A * W :=
  fun w =>
    match m w with
    | (Ok a, w') => (a, w')
    | (Raise e, w') => (handler e, w')
    end.

Notation "'let*' x ':=' m 'in' k" := (bind m (fun x => k))
  (at level 10, x name, m at level 100, k at level 200).

(** [for x in xs: st = body(st, x)] *)
Fixpoint for_each {W A S} (body : S -> A -> M W S) (xs : list A) (st : S) : M W S :=
  match xs with
  | [] => ret st
  | x :: rest => let* st' := body st x in for_each body rest st'
  end.

(* ===================================================================== *)
(** * get_historical_data_for_event *)
(* ===================================================================== *)

(** The decoded payload, [data = response.json()]: each level of
    [data["properties"]["parameter"][...]] may be absent.  [T2M_MAX] is
    kept as the sequence [temp_data.items()] walks, [PRECTOTCORR] as the
    dictionary [precip_data.get] looks into. *)
Record ParameterSet : Type := mkParameterSet {
  T2M_MAX : option (list (string * Q));
  PRECTOTCORR : option (gmap string Q)
}.

Record Properties : Type := mkProperties {
  parameter : option ParameterSet
}.

Record PowerData : Type := mkPowerData {
  properties : option Properties
}.

(** What the [try] block has in hand at line 48.  [Failed]: a statement of
    the block raised (building the request, [requests.get],
    [raise_for_status], [response.json()], or a payload that is not of the
    shape above); the handler of line 75 then returns the empty frame.
    [Json data]: the payload was decoded. *)
Inductive Response : Type :=
| Failed
| Json (data : PowerData).

(** The remote service together with the clock. *)
Definition Http (W : Type) : Type := Q -> Q -> date -> date -> W -> Response * W.

Definition MISSING : Q := (-999)%Q.

(** Lines 56-65, the loop over [temp_data.items()]. *)
Fixpoint collect_rows (temp_items : list (string * Q)) (precip_data : gmap string Q)
  : DataFrame :=
  match temp_items with
  | [] => []
  | (d, temp) :: rest =>
      if negb (Qeq_bool temp MISSING) then
        let precip := default 0%Q (precip_data !! d) in
        mkRow d temp (if negb (Qeq_bool precip MISSING) then precip else 0%Q)
          :: collect_rows rest precip_data
      else collect_rows rest precip_data
  end.

(** Lines 48-73. *)
Definition frame_of_payload (data : PowerData) : DataFrame :=
  match properties data with
  | None => []
  | Some props =>
      match parameter props with
      | None => []
      | Some par =>
          let temp_data := default [] (T2M_MAX par) in
          let precip_data := default ∅ (PRECTOTCORR par) in
          collect_rows temp_data precip_data
      end
  end.

Definition get_historical_data_for_event {W} (http : Http W)
    (latitude longitude : Q) (event_start event_end : date) : W -> DataFrame * W :=
  fun w =>
    match http latitude longitude event_start event_end w with
    | (Json data, w') => (frame_of_payload data, w')
    | (Failed, w') => ([], w')
    end.

(* ===================================================================== *)
(** * find_best_dates *)
(* ===================================================================== *)

(** The historical data source as [find_best_dates] sees it. *)
Definition Source (W : Type) : Type := Q -> Q -> date -> date -> W -> DataFrame * W.

(** [best_score] starts at [float('inf')]. *)
Inductive Score : Type :=
| inf
| fin (n : Z).

(** [score < best_score] *)
Definition score_lt (score : Z) (best : Score) : bool :=
  match best with
  | inf => true
  | fin b => score <? b
  end.

Record Locals : Type := mkLocals {
  best_score : Score;
  best_start : option date;
  iterations : Z
}.

(** Lines 197-200. *)
Definition risk_score (candidate_df : DataFrame) (hot_thresh rain_thresh : Q) : Z :=
  let hot_days := series_sum (series_gt (column temperature_2m_max candidate_df) hot_thresh) in
  let rainy_days := series_sum (series_gt (column precipitation_sum candidate_df) rain_thresh) in
  hot_days + rainy_days.

Definition max_search_days : Z := 90.
Definition max_iterations : Z := 50.

(** Line 185, the offsets the loop walks. *)
Definition candidate_offsets (search_start search_end : date) (event_duration : Z) : list Z :=
  range 0 (Z.min (days_between search_end search_start - event_duration + 1) max_iterations).

Section FindBestDates.
Context {W : Type}.
Variable fetch : Source W.
Variables latitude longitude : Q.

(** A call of the source: it has its own handler and never raises. *)
Definition call_fetch (s e : date) : M W DataFrame :=
  fun w => let r := fetch latitude longitude s e w in (Ok r.1, r.2).

(** Lines 186-204, one turn of the loop. *)
Definition loop_body (search_start : date) (hot_thresh rain_thresh : Q)
    (event_duration : Z) (st : Locals) (start_offset : Z) : M W Locals :=
  let iterations' := iterations st + 1 in
  let* td := lift (timedelta start_offset) in
  let* candidate_start := lift (date_add search_start td) in
  let* td' := lift (timedelta (event_duration - 1)) in
  let* candidate_end := lift (date_add candidate_start td') in
  let* candidate_df := call_fetch candidate_start candidate_end in
  if empty candidate_df then
    ret (mkLocals (best_score st) (best_start st) iterations')
  else
    let score := risk_score candidate_df hot_thresh rain_thresh in
    if score_lt score (best_score st) then
      ret (mkLocals (fin score) (Some candidate_start) iterations')
    else
      ret (mkLocals (best_score st) (best_start st) iterations').

(** Lines 167-171. *)
Definition clamp_search_end (search_start search_end : date) : M W date :=
  let search_days := days_between search_end search_start in
  if search_days >? max_search_days then
    let* td := lift (timedelta max_search_days) in
    lift (date_add search_start td)
  else ret search_end.

(** Lines 167-210, the body of the [try]. *)
Definition find_best_dates_body (search_start search_end : date)
    (hot_thresh rain_thresh : Q) (event_duration : Z)
  : M W (option date * option date) :=
  let* search_end := clamp_search_end search_start search_end in
  let* hist_df := call_fetch search_start search_end in
  if empty hist_df then ret (None, None)
  else
    let* st := for_each (loop_body search_start hot_thresh rain_thresh event_duration)
                 (candidate_offsets search_start search_end event_duration)
                 (mkLocals inf None 0) in
    match best_start st with
    | Some bs =>
        let* td := lift (timedelta (event_duration - 1)) in
        let* best_end := lift (date_add bs td) in
        ret (Some bs, Some best_end)
    | None => ret (None, None)
    end.

(** Lines 162-214. *)
Definition find_best_dates (search_start search_end : date)
    (hot_thresh rain_thresh : Q) (event_duration : Z)
  : W -> (option date * option date) * W :=
  try_except
    (find_best_dates_body search_start search_end hot_thresh rain_thresh event_duration)
    (fun _ => (None, None)).

End FindBestDates.

(** [find_best_dates] as the module wires it: the source is
    [get_historical_data_for_event] over the remote service. *)
Definition find_best_dates_power {W} (http : Http W) :=
  find_best_dates (get_historical_data_for_event http).

(* ===================================================================== *)
(** * Observing the data source *)
(* ===================================================================== *)

Record Call : Type := mkCall {
  call_latitude : Q;
  call_longitude : Q;
  call_start : date;
  call_end : date
}.

(** A source that also appends every request it receives to a log. *)
Definition instrument {W} (fetch : Source W) : Source (W * list Call) :=
  fun lat lon s e wl =>
    let r := fetch lat lon s e wl.1 in
    (r.1, (r.2, wl.2 ++ [mkCall lat lon s e])).

(** A source whose answer depends on the request only. *)
Definition pure_source {W} (stub : Q -> Q -> date -> date -> DataFrame) : Source W :=
  fun lat lon s e w => (stub lat lon s e, w).

(** The counting stub of the test plan: a pure stub with a request log. *)
Definition counting (stub : Q -> Q -> date -> date -> DataFrame) : Source (unit * list Call) :=
  instrument (pure_source stub).

(** The request the loop issues for the candidate at [start_offset]. *)
Definition candidate_call (latitude longitude : Q) (search_start : date)
    (event_duration start_offset : Z) : Call :=
  mkCall latitude longitude (search_start + start_offset)
    (search_start + start_offset + (event_duration - 1)).

(** What one turn of the loop does to the locals once the candidate's frame
    is known: lines 193-204 without the fetch. *)
Definition step (hot_thresh rain_thresh : Q) (st : Locals) (candidate_start : date)
    (candidate_df : DataFrame) : Locals :=
  if empty candidate_df then
    mkLocals (best_score st) (best_start st) (iterations st + 1)
  else if score_lt (risk_score candidate_df hot_thresh rain_thresh) (best_score st) then
    mkLocals (fin (risk_score candidate_df hot_thresh rain_thresh)) (Some candidate_start)
      (iterations st + 1)
  else mkLocals (best_score st) (best_start st) (iterations st + 1).

(** The frame a pure stub returns for the candidate at [start_offset], and
    its score. *)
Definition candidate_frame (stub : Q -> Q -> date -> date -> DataFrame)
    (latitude longitude : Q) (search_start : date) (event_duration start_offset : Z)
  : DataFrame :=
  stub latitude longitude (search_start + start_offset)
    (search_start + start_offset + (event_duration - 1)).

Definition candidate_score (stub : Q -> Q -> date -> date -> DataFrame)
    (latitude longitude : Q) (search_start : date) (hot_thresh rain_thresh : Q)
    (event_duration start_offset : Z) : Z :=
  risk_score (candidate_frame stub latitude longitude search_start event_duration
                start_offset) hot_thresh rain_thresh.

(** The loop against a pure stub, as a fold. *)
Definition scan (stub : Q -> Q -> date -> date -> DataFrame) (latitude longitude : Q)
    (search_start : date) (hot_thresh rain_thresh : Q) (event_duration : Z)
    (offsets : list Z) (st : Locals) : Locals :=
  fold_left
    (fun st off =>
       step hot_thresh rain_thresh st (search_start + off)
         (candidate_frame stub latitude longitude search_start event_duration off))
    offsets st.

(** The offsets whose frame has data. *)
Definition with_data (stub : Q -> Q -> date -> date -> DataFrame)
    (latitude longitude : Q) (search_start : date) (event_duration : Z)
    (offsets : list Z) : list Z :=
  filter
    (fun off => empty (candidate_frame stub latitude longitude search_start
                         event_duration off) = false)
    offsets.

(** The end of the range the search works on: lines 169-171 when nothing
    overflows. *)
Definition clamped_end (search_start search_end : date) : date :=
  if days_between search_end search_start >? max_search_days
  then search_start + max_search_days
  else search_end.

(** Lines 206-210 together with the handler of line 212: the pair returned
    for the recorded best start. *)
Definition window_of (event_duration : Z) (best : option date)
  : option date * option date :=
  match best with
  | Some bs =>
      match timedelta (event_duration - 1) with
      | Ok td =>
          match date_add bs td with
          | Ok best_end => (Some bs, Some best_end)
          | Raise _ => (None, None)
          end
      | Raise _ => (None, None)
      end
  | None => (None, None)
  end.

(** [c] is strictly below the best score so far. *)
Definition Score_above (c : Z) (s : Score) : Prop :=
  match s with
  | inf => True
  | fin b => c < b
  end.

(** The two preconditions of the design document, and what it asks of a
    call that breaks one: a report that differs from [(None, None)] and no
    request to the data source. *)
Definition InvalidInput (search_start search_end : date) (event_duration : Z) : Prop :=
  event_duration < 1 \/ search_start > search_end.

Definition fails_fast (outcome : (option date * option date) * (unit * list Call)) : Prop :=
  outcome.1 <> (None, None) /\ outcome.2.2 = [].

(** Strict order and equality of readings are decidable. *)
#[local] Instance Qlt_decision (x y : Q) : Decision (x < y)%Q.
Proof.
  destruct (Qlt_le_dec x y) as [H | H]; [left; exact H | right].
  apply Qle_not_lt, H.
Defined.

#[local] Instance Qeq_decision (x y : Q) : Decision (x == y)%Q := Qeq_dec x y.

(** The score in the words of the design document: the number of records
    strictly above the hot threshold plus the number strictly above the
    rain threshold. *)
Definition spec_score (series : DataFrame) (hot_threshold rain_threshold : Q) : Z :=
  Z.of_nat (length (filter (fun r => (hot_threshold < temperature_2m_max r)%Q) series))
  + Z.of_nat (length (filter (fun r => (rain_threshold < precipitation_sum r)%Q) series)).

(** ** Stubs used to run the search on concrete inputs *)

Definition hot_rows (n : nat) : DataFrame := replicate n (mkRow "20200101" 35%Q 0%Q).

(** Every window has data: one hot day. *)
Definition stub_always (_ _ : Q) (_ _ : date) : DataFrame := hot_rows 1.

(** Five-day candidates from day 100 on: the ones at offsets 3 and 7 score
    2, every other one scores 3; longer windows have data. *)
Definition stub_tie (_ _ : Q) (s e : date) : DataFrame :=
  if e - s >? 4 then hot_rows 1
  else if (s =? 103) || (s =? 107) then hot_rows 2
  else hot_rows 3.

(** The candidate at offset 0 has no data, the one at offset 1 has. *)
Definition stub_gap (_ _ : Q) (s e : date) : DataFrame :=
  if (s =? 100) && (e =? 100) then [] else hot_rows 1.

(** A source with hidden state: it counts its requests, and answers from
    the request alone. *)
Definition counter_source : Source nat :=
  fun lat lon s e n => (stub_tie lat lon s e, S n).

(** A payload with a missing temperature, a missing precipitation and an
    absent precipitation. *)
Definition sample_temps : list (string * Q) :=
  [("20200101", 30%Q); ("20200102", MISSING); ("20200103", 31%Q); ("20200104", 29%Q)].

Definition sample_precips : gmap string Q :=
  <["20200101" := 4%Q]> (<["20200102" := 1%Q]> (<["20200103" := MISSING]> ∅)).

(** A service that answers every request with the sample payload, and one
    that is down. *)
Definition http_sample : Http unit :=
  fun _ _ _ _ w =>
    (Json (mkPowerData (Some (mkProperties (Some
             (mkParameterSet (Some sample_temps) (Some sample_precips)))))), w).

Definition http_down : Http unit := fun _ _ _ _ w => (Failed, w).

(** Lines 206-210 inside the [try]: the pair built from the recorded best
    start, or the exception of the date arithmetic. *)
Definition finish (event_duration : Z) (best : option date)
  : Res (option date * option date) :=
  match best with
  | Some bs =>
      match timedelta (event_duration - 1) with
      | Ok td =>
          match date_add bs td with
          | Ok best_end => Ok (Some bs, Some best_end)
          | Raise e => Raise e
          end
      | Raise e => Raise e
      end
  | None => Ok (None, None)
  end.

(** The entries of [T2M_MAX] in a payload, none when a level is absent:
    what [temp_data.items()] walks at line 60, if the loop is reached. *)
Definition temperature_entries (data : PowerData) : list (string * Q) :=
  match properties data with
  | Some props =>
      match parameter props with
      | Some par => default [] (T2M_MAX par)
      | None => []
      end
  | None => []
  end.

(* ===================================================================== *)
(** * simulate_future_forecast *)
(* ===================================================================== *)

(** A row of the simulated frame: [Date], [Simulated Max Temp] and
    [Simulated Rainfall]. *)
Record SimRow : Type := mkSimRow {
  sim_date : date;
  sim_max_temp : Q;
  sim_rainfall : Q
}.

(** [pd.DataFrame({...})] on three lists: pandas raises [ValueError] when
    the lengths differ ([None]). *)
Fixpoint frame3 (dates : list date) (temps precips : list Q) : option (list SimRow) :=
  match dates, temps, precips with
  | [], [], [] => Some []
  | d :: ds, t :: ts, p :: ps =>
      match frame3 ds ts ps with
      | Some df => Some (mkSimRow d t p :: df)
      | None => None
      end
  | _, _, _ => None
  end.

(** Line 131, [[event_start + timedelta(days=i) for i in range(num_days)]]. *)
Fixpoint comprehension_dates (event_start : date) (offsets : list Z) : Res (list date) :=
  match offsets with
  | [] => Ok []
  | i :: rest =>
      match timedelta i with
      | Ok td =>
          match date_add event_start td with
          | Ok d =>
              match comprehension_dates event_start rest with
              | Ok ds => Ok (d :: ds)
              | Raise e => Raise e
              end
          | Raise e => Raise e
          end
      | Raise e => Raise e
      end
  end.

(** [max(0, x)]: the first argument unless the second is greater. *)
Definition max0 (x : Q) : Q := if Qgtb x 0%Q then x else 0%Q.

Section Simulate.
Context {R : Type}.
(** [hist_df.sample(n=1)], [random.uniform(a, b)] and [round(x, 2)]: the
    random sources read and change the state [R]. *)
Variable sample : DataFrame -> R -> Row * R.
Variable uniform : Q -> Q -> R -> Q * R.
Variable round2 : Q -> Q.

(** Lines 137-146, the loop over [range(num_days)] with the two lists it
    appends to. *)
Fixpoint sampling_loop (hist_df : DataFrame) (days : list Z)
    (simulated_temps simulated_precip : list Q) (r : R) : (list Q * list Q) * R :=
  match days with
  | [] => ((simulated_temps, simulated_precip), r)
  | _ :: rest =>
      let s := sample hist_df r in
      let u := uniform (-3)%Q 3%Q s.2 in
      let temp := (temperature_2m_max s.1 + u.1)%Q in
      let v := uniform (-2)%Q 2%Q u.2 in
      let precip := max0 (precipitation_sum s.1 + v.1)%Q in
      sampling_loop hist_df rest (simulated_temps ++ [round2 temp])
        (simulated_precip ++ [round2 precip]) v.2
  end.

(** Lines 123-159. *)
Definition simulate_future_forecast (hist_df : DataFrame) (event_start event_end : date)
  : R -> list SimRow * R :=
  fun r =>
    if empty hist_df then ([], r)
    else
      let num_days := days_between event_end event_start + 1 in
      match comprehension_dates event_start (range 0 num_days) with
      | Raise _ => ([], r)
      | Ok dates =>
          let out := sampling_loop hist_df (range 0 num_days) [] [] r in
          match frame3 dates out.1.1 out.1.2 with
          | Some df => (df, out.2)
          | None => ([], out.2)
          end
      end.

End Simulate.

(** Random sources for concrete runs: always the first row of the frame
    and always the lower bound; rounding that leaves its argument. *)
Definition sample_first (df : DataFrame) (r : nat) : Row * nat :=
  (List.hd (mkRow "" 0%Q 0%Q) df, S r).

Definition uniform_low (a b : Q) (r : nat) : Q * nat := (a, S r).

(** Rounding of a rational to hundredths, ties to the even hundredth. *)
Definition round_cents (x : Q) : Q :=
  let y := (x * 100)%Q in
  let q := Qfloor y in
  let m := Qfloor (y * 2)%Q in
  let tie := (Qnum (y * 2)%Q mod Zpos (Qden (y * 2)%Q) =? 0) in
  let up := if Z.even m then false else if tie then Z.odd q else true in
  ((if up then q + 1 else q) # 100)%Q.

(* ===================================================================== *)
(** * get_immediate_forecast *)
(* ===================================================================== *)

(** A scalar of a JSON array. *)
Inductive Cell : Type :=
| CNull
| CStr (s : string)
| CNum (q : Q).

(** What the [try] block has in hand at line 100: a statement raised, or
    the payload was decoded; [daily] is [data["daily"]] when the key is
    there, a dictionary from names to arrays. *)
Inductive ForecastResponse : Type :=
| ForecastFailed
| ForecastJson (daily : option (gmap string (list Cell))).

Record ForecastRow : Type := mkForecastRow {
  fc_date : Cell;
  fc_max_temp : Cell;
  fc_min_temp : Cell;
  fc_precipitation : Cell
}.

(** [pd.DataFrame({...})] on four lists: pandas raises [ValueError] when
    the lengths differ ([None]). *)
Fixpoint frame4 (c1 c2 c3 c4 : list Cell) : option (list ForecastRow) :=
  match c1, c2, c3, c4 with
  | [], [], [], [] => Some []
  | x1 :: r1, x2 :: r2, x3 :: r3, x4 :: r4 =>
      match frame4 r1 r2 r3 r4 with
      | Some df => Some (mkForecastRow x1 x2 x3 x4 :: df)
      | None => None
      end
  | _, _, _, _ => None
  end.

(** Lines 100-111: [None] stands for the [KeyError] of a missing key and
    for the [ValueError] of the frame. *)
Definition forecast_frame (daily : gmap string (list Cell)) : option (list ForecastRow) :=
  match daily !! "time" with
  | Some time =>
      match daily !! "temperature_2m_max" with
      | Some tmax =>
          match daily !! "temperature_2m_min" with
          | Some tmin =>
              match daily !! "precipitation_sum" with
              | Some precip => frame4 time tmax tmin precip
              | None => None
              end
          | None => None
          end
      | None => None
      end
  | None => None
  end.

(** Lines 84-115. *)
Definition get_immediate_forecast {W} (http : Q -> Q -> W -> ForecastResponse * W)
    (latitude longitude : Q) : W -> list ForecastRow * W :=
  fun w =>
    match http latitude longitude w with
    | (ForecastJson (Some daily), w') =>
        match forecast_frame daily with
        | Some df => (df, w')
        | None => ([], w')
        end
    | (ForecastJson None, w') => ([], w')
    | (ForecastFailed, w') => ([], w')
    end.

(** A two-day answer, and one whose precipitation array is short. *)
Definition daily_two_days : gmap string (list Cell) :=
  <["time" := [CStr "2025-10-04"; CStr "2025-10-05"]]>
  (<["temperature_2m_max" := [CNum 21%Q; CNum 19%Q]]>
  (<["temperature_2m_min" := [CNum 12%Q; CNull]]>
  (<["precipitation_sum" := [CNum 0%Q; CNum (3 # 2)%Q]]> ∅))).

Definition daily_short_column : gmap string (list Cell) :=
  <["precipitation_sum" := [CNum 0%Q]]> daily_two_days.

Definition forecast_http (daily : option (gmap string (list Cell)))
  : Q -> Q -> unit -> ForecastResponse * unit :=
  fun _ _ w => (ForecastJson daily, w).

(* ===================================================================== *)
(** * clean_text_for_pdf *)
(* ===================================================================== *)

(** A [str] is the list of its code points. *)
Abbreviation text := (list N) (only parsing).

Definition text_of (s : string) : text := map Ascii.N_of_ascii (String.list_ascii_of_string s).

(** [s.startswith(old)] *)
Fixpoint starts_with (old s : text) : bool :=
  match old, s with
  | [], _ => true
  | o :: old', c :: s' => (o =? c)%N && starts_with old' s'
  | _ :: _, [] => false
  end.

(** [s.replace(old, new)] for a non-empty [old]: occurrences are found
    from the left and do not overlap; [skip] counts the characters of the
    occurrence just replaced that are still to be passed over. *)
Fixpoint replace_go (old new : text) (skip : nat) (s : text) : text :=
  match s with
  | [] => []
  | c :: s' =>
      match skip with
      | S k => replace_go old new k s'
      | O =>
          if starts_with old s
          then new ++ replace_go old new (length old - 1) s'
          else c :: replace_go old new 0 s'
      end
  end.

(** [s.replace(old, new)]; an empty [old] matches before every character
    and at the end. *)
Definition replace (old new s : text) : text :=
  match old with
  | [] => new ++ flat_map (fun c => c :: new) s
  | _ :: _ => replace_go old new 0 s
  end.

(** [emoji_map.items()], lines 226-231: the literal names one key twice,
    so the dictionary has 19 entries, all mapped to the empty string. *)
Definition emoji_map : list (text * text) :=
  map (fun emoji => (emoji, []))
    [ [0x2744; 0xfe0f]; [0x1f525]; [0x1f327; 0xfe0f]; [0x2705]; [0x26a0; 0xfe0f];
      [0x1f4a1]; [0x1f30d]; [0x1f4cd]; [0x1f6f0; 0xfe0f]; [0x1f4e1];
      [0x2600; 0xfe0f]; [0x1f324; 0xfe0f]; [0x26c5]; [0x1f325; 0xfe0f];
      [0x2601; 0xfe0f];
      [0x1f326; 0xfe0f]; [0x26c8; 0xfe0f]; [0x1f329; 0xfe0f]; [0x1f328; 0xfe0f] ]%N.

(** [s.encode('latin-1', errors='ignore').decode('latin-1')] *)
Definition latin1_ignore (s : text) : text :=
  filter (fun c => (c <= 0xff)%N) s.

(** [c.isspace()] *)
Definition isspace (c : N) : bool :=
  ((0x09 <=? c) && (c <=? 0x0d) || (0x1c <=? c) && (c <=? 0x20)
   || (c =? 0x85) || (c =? 0xa0) || (c =? 0x1680)
   || (0x2000 <=? c) && (c <=? 0x200a)
   || (c =? 0x2028) || (c =? 0x2029) || (c =? 0x202f) || (c =? 0x205f)
   || (c =? 0x3000))%N.

Fixpoint lstrip (s : text) : text :=
  match s with
  | [] => []
  | c :: s' => if isspace c then lstrip s' else s
  end.

Definition rstrip (s : text) : text := reverse (lstrip (reverse s)).

(** [s.strip()] *)
Definition strip (s : text) : text := rstrip (lstrip s).

Definition STAR : N := 0x2a%N.
Definition DEGREE : N := 0xb0%N.

(** Lines 233-247. *)
Definition clean_text_for_pdf (t : text) : text :=
  let cleaned :=
    fold_left (fun cleaned item => replace item.1 item.2 cleaned) emoji_map t in
  let cleaned := replace [STAR; STAR] [] cleaned in
  let cleaned := replace (DEGREE :: text_of "C") (text_of " deg C") cleaned in
  let cleaned := replace [DEGREE] (text_of " deg ") cleaned in
  let cleaned := latin1_ignore cleaned in
  strip cleaned.

(** [old in s]: [old] occurs in [s] at some position. *)
Definition occurs (old s : text) : Prop :=
  exists k : nat, starts_with old (drop k s) = true.

(** Lines 343-357 of [add_location_section]: the texts handed to
    [pdf.multi_cell] for the recommendations, one per point that is not
    empty once cleaned; no [advice_points] key or an empty list gives
    none. *)
Definition advice_bullets (advice_points : option (list text)) : list text :=
  match advice_points with
  | None => []
  | Some points =>
      flat_map
        (fun point =>
           match clean_text_for_pdf point with
           | [] => []
           | cleaned => [text_of "* " ++ cleaned]
           end)
        points
  end.

(* ===================================================================== *)
(** * Properties *)
(* ===================================================================== *)

(** ** Comparisons on readings *)

Lemma Qgtb_true (x t : Q) : Qgtb x t = true <-> (t < x)%Q.
Proof.
  unfold Qgtb. rewrite negb_true_iff. split.
  - intros H. apply Qnot_le_lt. intros Hle.
    apply Qle_bool_iff in Hle. congruence.
  - intros H. destruct (Qle_bool x t) eqn:E; [|reflexivity].
    apply Qle_bool_iff in E. exfalso. revert E. apply Qlt_not_le, H.
Qed.

Lemma Qgtb_false (x t : Q) : Qgtb x t = false <-> ~ (t < x)%Q.
Proof.
  rewrite <- Qgtb_true. destruct (Qgtb x t); split; congruence.
Qed.

Lemma series_sum_count (col : Row -> Q) (t : Q) (df : DataFrame) :
  series_sum (series_gt (column col df) t)
  = Z.of_nat (length (filter (fun r => (t < col r)%Q) df)).
Proof.
  induction df as [|r df IH]; [reflexivity|].
  cbn [column map series_gt series_sum] in *.
  fold (column col df). fold (series_gt (column col df) t). rewrite IH.
  destruct (Qgtb (col r) t) eqn:E.
  - apply Qgtb_true in E. rewrite filter_cons_True by exact E.
    cbn [length]. lia.
  - apply Qgtb_false in E. rewrite filter_cons_False by exact E. lia.
Qed.

(** C7. The score [find_best_dates] computes for a candidate frame is the
    number of rows whose maximum temperature is strictly above the hot
    threshold plus the number of rows whose precipitation is strictly
    above the rain threshold; it lies between 0 and twice the number of
    rows. *)
Theorem risk_score_counts_exceedances (df : DataFrame) (hot_thresh rain_thresh : Q) :
  risk_score df hot_thresh rain_thresh = spec_score df hot_thresh rain_thresh
  /\ 0 <= risk_score df hot_thresh rain_thresh <= 2 * Z.of_nat (length df).
Proof.
  assert (E : risk_score df hot_thresh rain_thresh = spec_score df hot_thresh rain_thresh).
  { unfold risk_score, spec_score. by rewrite !series_sum_count. }
  split; [exact E|]. rewrite E. unfold spec_score.
  pose proof (length_filter (fun r => (hot_thresh < temperature_2m_max r)%Q) df).
  pose proof (length_filter (fun r => (rain_thresh < precipitation_sum r)%Q) df).
  lia.
Qed.

(** A reading equal to its threshold does not count, one above it does. *)
Example risk_score_is_strict :
  risk_score [mkRow "20200101" 32%Q 10%Q; mkRow "20200102" (321 # 10)%Q (101 # 10)%Q]
    32%Q 10%Q = 2.
Proof. reflexivity. Qed.

(** ** The historical fetch *)

Lemma Qeq_bool_decide (x y : Q) : Qeq_bool x y = bool_decide (x == y)%Q.
Proof.
  destruct (Qeq_bool x y) eqn:E; symmetry.
  - apply bool_decide_eq_true, Qeq_bool_iff, E.
  - apply bool_decide_eq_false. intros H. apply Qeq_bool_iff in H. congruence.
Qed.

Lemma collect_rows_keys (temp_items : list (string * Q)) (precip_data : gmap string Q) :
  map (fun r => (date_str r, temperature_2m_max r)) (collect_rows temp_items precip_data)
  = filter (fun dt => ~ (dt.2 == MISSING)%Q) temp_items.
Proof.
  induction temp_items as [|[d t] rest IH]; [reflexivity|].
  cbn [collect_rows]. rewrite Qeq_bool_decide.
  destruct (decide (t == MISSING)%Q) as [Ht | Ht].
  - rewrite bool_decide_eq_true_2 by exact Ht. cbn [negb].
    rewrite filter_cons_False; [exact IH|]. cbn. tauto.
  - rewrite bool_decide_eq_false_2 by exact Ht. cbn [negb map].
    rewrite filter_cons_True by exact Ht. by rewrite IH.
Qed.

Lemma collect_rows_precip (temp_items : list (string * Q)) (precip_data : gmap string Q) :
  Forall
    (fun r =>
       match precip_data !! date_str r with
       | None => precipitation_sum r = 0%Q
       | Some p =>
           ((p == MISSING)%Q -> precipitation_sum r = 0%Q)
           /\ (~ (p == MISSING)%Q -> precipitation_sum r = p)
       end)
    (collect_rows temp_items precip_data).
Proof.
  induction temp_items as [|[d t] rest IH]; [constructor|].
  cbn [collect_rows]. destruct (negb (Qeq_bool t MISSING)); [|exact IH].
  constructor; [|exact IH]. cbn [date_str precipitation_sum].
  destruct (precip_data !! d) as [p|] eqn:Hp; cbn [default].
  - rewrite Qeq_bool_decide. split; intros H.
    + by rewrite bool_decide_eq_true_2.
    + by rewrite bool_decide_eq_false_2.
  - reflexivity.
Qed.

(** C8. [get_historical_data_for_event] returns a frame whatever the
    transport does: the empty frame when the request or the decoding
    fails or when the payload lacks [properties] or [parameter].
    Otherwise the rows are, in order, the temperature entries that are
    not the sentinel -999, each with its own date and temperature; the
    precipitation of a row is the payload's value for that date, or 0
    when that value is absent or is the sentinel. *)
Theorem get_historical_data_filters_sentinels {W} (http : Http W)
    (latitude longitude : Q) (event_start event_end : date) (w : W) :
  (get_historical_data_for_event http latitude longitude event_start event_end w).1
  = match (http latitude longitude event_start event_end w).1 with
    | Failed => []
    | Json data => frame_of_payload data
    end
  /\ frame_of_payload (mkPowerData None) = []
  /\ frame_of_payload (mkPowerData (Some (mkProperties None))) = []
  /\ forall (temp_data : option (list (string * Q)))
            (precip_data : option (gmap string Q)),
       let df := frame_of_payload
                   (mkPowerData (Some (mkProperties (Some
                      (mkParameterSet temp_data precip_data))))) in
       map (fun r => (date_str r, temperature_2m_max r)) df
       = filter (fun dt => ~ (dt.2 == MISSING)%Q) (default [] temp_data)
       /\ Forall (fun r => ~ (temperature_2m_max r == MISSING)%Q) df
       /\ Forall
            (fun r =>
               match default ∅ precip_data !! date_str r with
               | None => precipitation_sum r = 0%Q
               | Some p =>
                   ((p == MISSING)%Q -> precipitation_sum r = 0%Q)
                   /\ (~ (p == MISSING)%Q -> precipitation_sum r = p)
               end) df.
Proof.
  split; [|split; [reflexivity|split; [reflexivity|]]].
  - unfold get_historical_data_for_event.
    by destruct (http latitude longitude event_start event_end w) as [[|data] w'].
  - intros temp_data precip_data df. subst df.
    cbn [frame_of_payload properties parameter T2M_MAX PRECTOTCORR].
    split; [apply collect_rows_keys|split; [|apply collect_rows_precip]].
    pose proof (collect_rows_keys (default [] temp_data) (default ∅ precip_data)) as Hk.
    apply Forall_forall. intros r Hr.
    assert (Hin : (date_str r, temperature_2m_max r)
                  ∈ filter (fun dt => ~ (dt.2 == MISSING)%Q) (default [] temp_data)).
    { rewrite <- Hk. apply list_elem_of_In, in_map_iff. exists r.
      split; [reflexivity|]. by apply list_elem_of_In. }
    apply list_elem_of_filter in Hin. exact (proj1 Hin).
Qed.

(** The sample payload: the entry of 2 January has no temperature and is
    dropped; 3 January has no precipitation and 4 January none at all,
    both are kept with 0. *)
Lemma get_historical_data_filters_sentinels_witness :
  (get_historical_data_for_event http_down 0%Q 0%Q 100 103 tt).1 = []
  /\ map (fun r => (date_str r, temperature_2m_max r))
       (get_historical_data_for_event http_sample 0%Q 0%Q 100 103 tt).1
     = [("20200101", 30%Q); ("20200103", 31%Q); ("20200104", 29%Q)]
  /\ (forall r,
        r ∈ (get_historical_data_for_event http_sample 0%Q 0%Q 100 103 tt).1 ->
        date_str r = "20200103" -> precipitation_sum r = 0%Q).
Proof.
  destruct (get_historical_data_filters_sentinels http_down 0%Q 0%Q 100 103 tt)
    as (Hdown & _).
  destruct (get_historical_data_filters_sentinels http_sample 0%Q 0%Q 100 103 tt)
    as (Hup & _ & _ & Hrows).
  destruct (Hrows (Some sample_temps) (Some sample_precips)) as (Hkeys & _ & Hprecip).
  cbn [http_sample http_down fst] in Hup, Hdown.
  split; [exact Hdown|]. rewrite Hup. split; [rewrite Hkeys; reflexivity|].
  intros r Hr Hd.
  pose proof (proj1 (Forall_forall _ _) Hprecip r Hr) as Hone.
  cbn beta in Hone. rewrite Hd in Hone.
  apply (proj1 Hone). reflexivity.
Defined.

(** ** Date arithmetic *)

Lemma timedelta_ok (n : Z) : Z.abs n <= MAX_DELTA_DAYS -> timedelta n = Ok n.
Proof. intros H. unfold timedelta. by rewrite (proj2 (Z.leb_le _ _) H). Qed.

Lemma timedelta_inv (n td : Z) :
  timedelta n = Ok td -> td = n /\ Z.abs n <= MAX_DELTA_DAYS.
Proof.
  unfold timedelta. destruct (_ <=? _) eqn:E; [|discriminate].
  apply Z.leb_le in E. intros [= <-]. done.
Qed.

Lemma date_add_ok (d : date) (n : Z) : valid_date (d + n) -> date_add d n = Ok (d + n).
Proof.
  intros [H1 H2]. unfold date_add. cbv zeta.
  by rewrite (proj2 (Z.leb_le _ _) H1), (proj2 (Z.leb_le _ _) H2).
Qed.

Lemma date_add_inv (d : date) (n : Z) (o : date) :
  date_add d n = Ok o -> o = d + n /\ valid_date o.
Proof.
  unfold date_add, valid_date. cbv zeta.
  destruct (MINORDINAL <=? d + n) eqn:E1; [|discriminate].
  destruct (d + n <=? MAXORDINAL) eqn:E2; [|discriminate].
  cbn. intros [= <-]. apply Z.leb_le in E1, E2. lia.
Qed.

Lemma window_of_cases (event_duration : Z) (best : option date) :
  window_of event_duration best = (None, None)
  \/ exists bs, best = Some bs
       /\ window_of event_duration best = (Some bs, Some (bs + (event_duration - 1))).
Proof.
  unfold window_of. destruct best as [bs|]; [|by left].
  destruct (timedelta _) as [td|] eqn:Etd; [|by left].
  destruct (date_add bs td) as [be|] eqn:Ebe; [|by left].
  right. exists bs. split; [reflexivity|].
  apply timedelta_inv in Etd as [-> _]. by apply date_add_inv in Ebe as [-> _].
Qed.

Lemma window_of_ok (event_duration : Z) (bs : date) :
  Z.abs (event_duration - 1) <= MAX_DELTA_DAYS ->
  valid_date (bs + (event_duration - 1)) ->
  window_of event_duration (Some bs) = (Some bs, Some (bs + (event_duration - 1))).
Proof.
  intros H1 H2. unfold window_of. by rewrite timedelta_ok, date_add_ok.
Qed.

Lemma clamp_search_end_cases {W} (search_start search_end : date) (w : W) :
  (exists e, clamp_search_end search_start search_end w = (Raise e, w))
  \/ clamp_search_end search_start search_end w
     = (Ok (clamped_end search_start search_end), w).
Proof.
  unfold clamp_search_end, clamped_end. cbv zeta.
  destruct (_ >? _); [|by right].
  unfold bind, lift. rewrite timedelta_ok by (unfold max_search_days, MAX_DELTA_DAYS; lia).
  unfold date_add. cbv zeta. destruct (_ && _); [by right|left; eauto].
Qed.

Lemma clamp_search_end_ok {W} (search_start search_end : date) (w : W) :
  valid_date search_start -> valid_date search_end ->
  clamp_search_end search_start search_end w
  = (Ok (clamped_end search_start search_end), w).
Proof.
  intros Hs He. unfold clamp_search_end, clamped_end, days_between. cbv zeta.
  destruct (_ >? _) eqn:E; [|reflexivity].
  apply Z.gtb_lt in E. unfold bind, lift.
  rewrite timedelta_ok by (unfold max_search_days, MAX_DELTA_DAYS; lia).
  rewrite date_add_ok; [reflexivity|].
  unfold valid_date, max_search_days, MINORDINAL, MAXORDINAL in *. lia.
Qed.

Lemma clamped_end_valid (search_start search_end : date) :
  valid_date search_start -> valid_date search_end ->
  valid_date (clamped_end search_start search_end).
Proof.
  unfold clamped_end, days_between, valid_date, max_search_days, MINORDINAL, MAXORDINAL.
  intros Hs He. destruct (_ >? _) eqn:E; [|lia]. apply Z.gtb_lt in E. lia.
Qed.

(** ** The candidate offsets *)

Lemma candidate_offsets_length (search_start search_end : date) (event_duration : Z) :
  length (candidate_offsets search_start search_end event_duration)
  = Z.to_nat (Z.min (search_end - search_start - event_duration + 1) max_iterations).
Proof.
  unfold candidate_offsets, range, days_between. rewrite length_seqZ. f_equal. lia.
Qed.

Lemma candidate_offsets_bound (search_start search_end : date) (event_duration : Z) :
  (length (candidate_offsets search_start search_end event_duration) <= 50)%nat.
Proof. rewrite candidate_offsets_length. unfold max_iterations. lia. Qed.

Lemma elem_of_candidate_offsets (search_start search_end : date) (event_duration k : Z) :
  k ∈ candidate_offsets search_start search_end event_duration
  <-> 0 <= k < Z.min (search_end - search_start - event_duration + 1) max_iterations.
Proof.
  unfold candidate_offsets, range, days_between. rewrite elem_of_seqZ. lia.
Qed.

(** With a positive duration every candidate window lies inside the range,
    so no date computation of the loop can overflow. *)
Lemma candidates_in_range (search_start search_end : date) (event_duration off : Z) :
  valid_date search_start -> valid_date search_end -> 1 <= event_duration ->
  off ∈ candidate_offsets search_start search_end event_duration ->
  Z.abs off <= MAX_DELTA_DAYS
  /\ Z.abs (event_duration - 1) <= MAX_DELTA_DAYS
  /\ valid_date (search_start + off)
  /\ valid_date (search_start + off + (event_duration - 1))
  /\ search_start + off + (event_duration - 1) < search_end.
Proof.
  intros Hs He Hd Hoff. apply elem_of_candidate_offsets in Hoff.
  unfold valid_date, MINORDINAL, MAXORDINAL, MAX_DELTA_DAYS, max_iterations in *.
  lia.
Qed.

Lemma candidate_offsets_split (search_start search_end : date) (event_duration k : Z) :
  0 <= k < Z.min (search_end - search_start - event_duration + 1) max_iterations ->
  exists after,
    candidate_offsets search_start search_end event_duration = seqZ 0 k ++ k :: after
    /\ forall j, j ∈ after ->
         k < j < Z.min (search_end - search_start - event_duration + 1) max_iterations.
Proof.
  intros Hk. unfold candidate_offsets, range, days_between.
  set (n := Z.min _ _) in *.
  exists (seqZ (k + 1) (n - k - 1)). split.
  - replace (n - 0) with (k + (n - k)) by lia.
    rewrite seqZ_app by lia. f_equal.
    rewrite (seqZ_cons (0 + k)) by lia.
    replace (0 + k) with k by lia.
    replace (Z.succ k) with (k + 1) by lia.
    by replace (Z.pred (n - k)) with (n - k - 1) by lia.
  - intros j Hj. apply elem_of_seqZ in Hj. lia.
Qed.

(** ** One turn of the loop, and the loop, against any source *)

Section AnySource.
Context {W : Type}.
Variable fetch : Source W.
Variables latitude longitude : Q.
Variable search_start : date.
Variables hot_thresh rain_thresh : Q.
Variable event_duration : Z.

Local Abbreviation body :=
  (loop_body fetch latitude longitude search_start hot_thresh rain_thresh
              event_duration).

(** A turn either raises before it reaches the source, or fetches the
    candidate window once and updates the locals. *)
Lemma loop_body_cases (st : Locals) (off : Z) (w : W) :
  (exists e, body st off w = (Raise e, w))
  \/ (Z.abs off <= MAX_DELTA_DAYS
      /\ Z.abs (event_duration - 1) <= MAX_DELTA_DAYS
      /\ valid_date (search_start + off)
      /\ valid_date (search_start + off + (event_duration - 1))
      /\ body st off w
         = (Ok (step hot_thresh rain_thresh st (search_start + off)
                  (fetch latitude longitude (search_start + off)
                     (search_start + off + (event_duration - 1)) w).1),
            (fetch latitude longitude (search_start + off)
               (search_start + off + (event_duration - 1)) w).2)).
Proof.
  unfold loop_body, bind, lift, call_fetch, ret, step. cbv zeta.
  destruct (timedelta off) as [td|] eqn:E1; cbv beta iota; [|left; eauto].
  apply timedelta_inv in E1 as [-> Hoff].
  destruct (date_add search_start off) as [cs|] eqn:E2; cbv beta iota; [|left; eauto].
  apply date_add_inv in E2 as [-> Hcs].
  destruct (timedelta (event_duration - 1)) as [td'|] eqn:E3; cbv beta iota;
    [|left; eauto].
  apply timedelta_inv in E3 as [-> Hdur].
  destruct (date_add _ (event_duration - 1)) as [ce|] eqn:E4; cbv beta iota;
    [|left; eauto].
  apply date_add_inv in E4 as [-> Hce].
  right. do 4 (split; [assumption|]).
  destruct (fetch _ _ _ _ w) as [df w']. cbn [fst snd].
  destruct (empty df); [reflexivity|]. by destruct (score_lt _ _).
Qed.

Lemma loop_body_ok (st : Locals) (off : Z) (w : W) :
  Z.abs off <= MAX_DELTA_DAYS ->
  Z.abs (event_duration - 1) <= MAX_DELTA_DAYS ->
  valid_date (search_start + off) ->
  valid_date (search_start + off + (event_duration - 1)) ->
  body st off w
  = (Ok (step hot_thresh rain_thresh st (search_start + off)
           (fetch latitude longitude (search_start + off)
              (search_start + off + (event_duration - 1)) w).1),
     (fetch latitude longitude (search_start + off)
        (search_start + off + (event_duration - 1)) w).2).
Proof.
  intros H1 H2 H3 H4.
  destruct (loop_body_cases st off w) as [[e He] | (_ & _ & _ & _ & Hok)]; [|exact Hok].
  exfalso. revert He.   unfold loop_body, bind, lift, call_fetch, ret. cbv zeta.
  rewrite (timedelta_ok off) by done. cbv beta iota.
  rewrite (date_add_ok search_start off) by done. cbv beta iota.
  rewrite timedelta_ok by done. cbv beta iota.
  rewrite date_add_ok by done. cbv beta iota.
  destruct (empty _); [discriminate|]. by destruct (score_lt _ _).
Qed.

Lemma for_each_cons (off : Z) (rest : list Z) (st : Locals) (w : W) :
  for_each body (off :: rest) st w
  = match body st off w with
    | (Ok st', w') => for_each body rest st' w'
    | (Raise e, w') => (Raise e, w')
    end.
Proof. reflexivity. Qed.

(** Unfolding [find_best_dates] once the clamp is known. *)
Lemma find_best_dates_run (search_end search_end' : date) (w : W) :
  clamp_search_end search_start search_end w = (Ok search_end', w) ->
  find_best_dates fetch latitude longitude search_start search_end hot_thresh
    rain_thresh event_duration w
  = if empty (fetch latitude longitude search_start search_end' w).1
    then ((None, None), (fetch latitude longitude search_start search_end' w).2)
    else
      match for_each body (candidate_offsets search_start search_end' event_duration)
              (mkLocals inf None 0)
              (fetch latitude longitude search_start search_end' w).2 with
      | (Ok st, w2) => (window_of event_duration (best_start st), w2)
      | (Raise _, w2) => ((None, None), w2)
      end.
Proof.
  intros Hc. unfold find_best_dates, try_except, find_best_dates_body.
  unfold bind at 1. rewrite Hc. unfold bind at 1, call_fetch at 1.
  destruct (fetch _ _ _ _ w) as [df w1]. cbn [fst snd].
  destruct (empty df); [reflexivity|].
  unfold bind at 1.
  destruct (for_each body _ _ w1) as [[st|e] w2]; [|reflexivity].
  unfold window_of. destruct (best_start st) as [bs|]; [|reflexivity].
  unfold bind at 1, lift at 1. destruct (timedelta _) as [td|]; [|reflexivity].
  unfold bind, lift, ret. by destruct (date_add bs td).
Qed.

Lemma find_best_dates_clamp_raises (search_end : date) (e : Exn) (w : W) :
  clamp_search_end search_start search_end w = (Raise e, w) ->
  find_best_dates fetch latitude longitude search_start search_end hot_thresh
    rain_thresh event_duration w = ((None, None), w).
Proof.
  intros Hc. unfold find_best_dates, try_except, find_best_dates_body.
  unfold bind at 1. by rewrite Hc.
Qed.

End AnySource.

(** ** The request log *)

Section Logged.
Context {W : Type}.
Variable fetch : Source W.
Variables latitude longitude : Q.
Variable search_start : date.
Variables hot_thresh rain_thresh : Q.
Variable event_duration : Z.

Local Abbreviation body :=
  (loop_body (instrument fetch) latitude longitude search_start hot_thresh
              rain_thresh event_duration).
Local Abbreviation call_of :=
  (candidate_call latitude longitude search_start event_duration).

(** The loop adds to the log the requests of the offsets it walked, in
    order: all of them, or the ones before the turn that raised. *)
Lemma for_each_log (offsets : list Z) (st : Locals) (wl : W * list Call) :
  exists walked,
    walked `prefix_of` offsets
    /\ (for_each body offsets st wl).2.2 = wl.2 ++ map call_of walked.
Proof.
  revert st wl. induction offsets as [|off rest IH]; intros st wl.
  - exists []. split; [done|]. cbn. by rewrite app_nil_r.
  - rewrite for_each_cons.
    destruct (loop_body_cases (instrument fetch) latitude longitude search_start
                hot_thresh rain_thresh event_duration st off wl)
      as [[e He] | (_ & _ & _ & _ & Hok)].
    + rewrite He. exists []. split; [apply prefix_nil|].
      cbn. by rewrite app_nil_r.
    + rewrite Hok.
      destruct (IH (step hot_thresh rain_thresh st (search_start + off)
                      (instrument fetch latitude longitude (search_start + off)
                         (search_start + off + (event_duration - 1)) wl).1)
                   (instrument fetch latitude longitude (search_start + off)
                      (search_start + off + (event_duration - 1)) wl).2)
        as (walked & Hpre & Hlog).
      exists (off :: walked). split; [by apply prefix_cons|].
      rewrite Hlog. cbn [instrument fst snd map]. by rewrite <- app_assoc.
Qed.

Lemma find_best_dates_log_from (search_end : date) (wl : W * list Call) :
  clamp_search_end search_start search_end wl
  = (Ok (clamped_end search_start search_end), wl) ->
  exists walked,
    walked `prefix_of`
      candidate_offsets search_start (clamped_end search_start search_end)
        event_duration
    /\ (find_best_dates (instrument fetch) latitude longitude search_start
          search_end hot_thresh rain_thresh event_duration wl).2.2
       = wl.2
         ++ mkCall latitude longitude search_start
              (clamped_end search_start search_end)
         :: map call_of walked.
Proof.
  intros Hc. rewrite (find_best_dates_run _ _ _ _ _ _ _ _ _ _ Hc).
  set (end' := clamped_end search_start search_end).
  destruct (empty _).
  - exists []. split; [apply prefix_nil|]. reflexivity.
  -
    destruct (for_each_log (candidate_offsets search_start end' event_duration)
                (mkLocals inf None 0)
                (instrument fetch latitude longitude search_start end' wl).2)
      as (walked & Hpre & Hlog).
    exists walked. split; [exact Hpre|].
    destruct (for_each body _ _ _) as [[st|e] w2]; cbn [snd] in *;
      rewrite Hlog; cbn [instrument fst snd]; by rewrite <- app_assoc.
Qed.

(** The log of a whole call: nothing when the clamp raised, otherwise the
    feasibility request over the clamped range followed by candidate
    requests for a prefix of the offsets. *)
Lemma find_best_dates_log (search_end : date) (wl : W * list Call) :
  find_best_dates (instrument fetch) latitude longitude search_start search_end
    hot_thresh rain_thresh event_duration wl = ((None, None), wl)
  \/ exists walked,
       walked `prefix_of`
         candidate_offsets search_start (clamped_end search_start search_end)
           event_duration
       /\ (find_best_dates (instrument fetch) latitude longitude search_start
             search_end hot_thresh rain_thresh event_duration wl).2.2
          = wl.2
            ++ mkCall latitude longitude search_start
                 (clamped_end search_start search_end)
            :: map call_of walked.
Proof.
  destruct (clamp_search_end_cases search_start search_end wl) as [[e He] | Hc].
  - left. by eapply find_best_dates_clamp_raises.
  - right. by apply find_best_dates_log_from.
Qed.

Lemma find_best_dates_log_valid (search_end : date) (wl : W * list Call) :
  valid_date search_start -> valid_date search_end ->
  exists walked,
    walked `prefix_of`
      candidate_offsets search_start (clamped_end search_start search_end)
        event_duration
    /\ (find_best_dates (instrument fetch) latitude longitude search_start
          search_end hot_thresh rain_thresh event_duration wl).2.2
       = wl.2
         ++ mkCall latitude longitude search_start
              (clamped_end search_start search_end)
         :: map call_of walked.
Proof.
  intros Hs He. by apply find_best_dates_log_from, clamp_search_end_ok.
Qed.

(** When no date computation overflows, every offset is requested. *)
Lemma for_each_log_ok (offsets : list Z) (st : Locals) (wl : W * list Call) :
  (forall off, off ∈ offsets ->
     Z.abs off <= MAX_DELTA_DAYS
     /\ Z.abs (event_duration - 1) <= MAX_DELTA_DAYS
     /\ valid_date (search_start + off)
     /\ valid_date (search_start + off + (event_duration - 1))) ->
  exists st' w',
    for_each body offsets st wl = (Ok st', (w', wl.2 ++ map call_of offsets)).
Proof.
  revert st wl. induction offsets as [|off rest IH]; intros st wl Hok.
  - exists st, wl.1. cbn. rewrite app_nil_r. by destruct wl.
  - rewrite for_each_cons.
    destruct (Hok off) as (H1 & H2 & H3 & H4); [left|].
    rewrite loop_body_ok by done.
    edestruct IH as (st' & w' & Hrun);
      [intros o Ho; apply Hok; by right|].
    rewrite Hrun. exists st', w'. cbn [instrument fst snd map].
    by rewrite <- app_assoc.
Qed.

Lemma find_best_dates_log_ok (search_end : date) (wl : W * list Call) :
  valid_date search_start -> valid_date search_end ->
  (forall off,
     off ∈ candidate_offsets search_start (clamped_end search_start search_end)
             event_duration ->
     Z.abs off <= MAX_DELTA_DAYS
     /\ Z.abs (event_duration - 1) <= MAX_DELTA_DAYS
     /\ valid_date (search_start + off)
     /\ valid_date (search_start + off + (event_duration - 1))) ->
  empty (fetch latitude longitude search_start
           (clamped_end search_start search_end) wl.1).1 = false ->
  (find_best_dates (instrument fetch) latitude longitude search_start search_end
     hot_thresh rain_thresh event_duration wl).2.2
  = wl.2
    ++ mkCall latitude longitude search_start (clamped_end search_start search_end)
    :: map call_of
         (candidate_offsets search_start (clamped_end search_start search_end)
            event_duration).
Proof.
  intros Hs He Hok Hne.
  rewrite (find_best_dates_run _ _ _ _ _ _ _ _ _ _
             (clamp_search_end_ok search_start search_end wl Hs He)).
  cbn [instrument fst snd]. rewrite Hne.
  edestruct for_each_log_ok as (st' & w' & Hrun); [exact Hok|].
  rewrite Hrun. cbn [fst snd]. by rewrite <- app_assoc.
Qed.

End Logged.

(** ** Bounded work *)

(** C5. Whatever the arguments and the source, the loop walks at most 50
    offsets and the data source receives at most 51 requests per call: the
    feasibility request and at most 50 candidate requests.  With a
    duration of one day and a 200-day range whose feasibility frame has
    data the bound is reached: exactly 51 requests. *)
Theorem find_best_dates_fetch_budget {W} (fetch : Source W) (latitude longitude : Q)
    (search_start search_end : date) (hot_thresh rain_thresh : Q)
    (event_duration : Z) (w : W) :
  (length (candidate_offsets search_start (clamped_end search_start search_end)
             event_duration) <= 50)%nat
  /\ (length (find_best_dates (instrument fetch) latitude longitude search_start
                search_end hot_thresh rain_thresh event_duration (w, [])).2.2
      <= 51)%nat
  /\ (valid_date search_start -> valid_date search_end ->
      search_end - search_start = 199 -> event_duration = 1 ->
      empty (fetch latitude longitude search_start (search_start + 90) w).1 = false ->
      length (find_best_dates (instrument fetch) latitude longitude search_start
                search_end hot_thresh rain_thresh event_duration (w, [])).2.2
      = 51%nat).
Proof.
  split; [apply candidate_offsets_bound|split].
  - destruct (find_best_dates_log fetch latitude longitude search_start hot_thresh
                rain_thresh event_duration search_end (w, []))
      as [-> | (walked & Hpre & ->)]; cbn [fst snd length app]; [lia|].
    rewrite length_map. apply prefix_length in Hpre.
    pose proof (candidate_offsets_bound search_start
                  (clamped_end search_start search_end) event_duration). lia.
  - intros Hs He Hspan -> Hne.
    assert (Hc : clamped_end search_start search_end = search_start + 90).
    { unfold clamped_end, days_between, max_search_days.
      rewrite Hspan. reflexivity. }
    rewrite find_best_dates_log_ok; [| done | done | | by rewrite Hc].
    + cbn [fst snd length app]. rewrite length_map, candidate_offsets_length, Hc.
      unfold max_iterations. lia.
    + intros off Hoff.
      pose proof (clamped_end_valid _ _ Hs He) as He'.
      assert (Hd : 1 <= 1) by lia.
      destruct (candidates_in_range _ _ _ _ Hs He' Hd Hoff) as (?&?&?&?&_).
      done.
Qed.

Lemma find_best_dates_fetch_budget_witness :
  length (find_best_dates (counting stub_always) 0%Q 0%Q 100 299 32%Q 10%Q 1 (tt, [])).2.2
  = 51%nat.
Proof.
  apply (find_best_dates_fetch_budget (pure_source stub_always) 0%Q 0%Q 100 299
           32%Q 10%Q 1 tt).
  - unfold valid_date, MINORDINAL, MAXORDINAL. lia.
  - unfold valid_date, MINORDINAL, MAXORDINAL. lia.
  - reflexivity.
  - reflexivity.
  - reflexivity.
Defined.

(** ** Totality *)

Lemma find_best_dates_outcome {W} (fetch : Source W) (latitude longitude : Q)
    (search_start search_end : date) (hot_thresh rain_thresh : Q)
    (event_duration : Z) (w : W) :
  (find_best_dates fetch latitude longitude search_start search_end hot_thresh
     rain_thresh event_duration w).1 = (None, None)
  \/ exists bs,
       (find_best_dates fetch latitude longitude search_start search_end hot_thresh
          rain_thresh event_duration w).1
       = (Some bs, Some (bs + (event_duration - 1))).
Proof.
  destruct (clamp_search_end_cases search_start search_end w) as [[e He] | Hc].
  - left. by rewrite (find_best_dates_clamp_raises _ _ _ _ _ _ _ _ _ _ He).
  - rewrite (find_best_dates_run _ _ _ _ _ _ _ _ _ _ Hc).
    destruct (empty _); [by left|].
    destruct (for_each _ _ _ _) as [[st|e] w2]; [|by left].
    cbn [fst].
    destruct (window_of_cases event_duration (best_start st)) as [-> | (bs & _ & ->)];
      [by left|right; by exists bs].
Qed.

(** C10. [find_best_dates] returns a pair for every argument and every
    behaviour of the data source: either [(None, None)] or a start with
    the end [event_duration - 1] days later.  Whenever the body raises,
    the handler turns the exception into [(None, None)]. *)
Theorem find_best_dates_total {W} (fetch : Source W) (latitude longitude : Q)
    (search_start search_end : date) (hot_thresh rain_thresh : Q)
    (event_duration : Z) (w : W) :
  ((find_best_dates fetch latitude longitude search_start search_end hot_thresh
      rain_thresh event_duration w).1 = (None, None)
   \/ exists bs,
        (find_best_dates fetch latitude longitude search_start search_end hot_thresh
           rain_thresh event_duration w).1
        = (Some bs, Some (bs + (event_duration - 1))))
  /\ (forall e w',
        find_best_dates_body fetch latitude longitude search_start search_end
          hot_thresh rain_thresh event_duration w = (Raise e, w') ->
        find_best_dates fetch latitude longitude search_start search_end hot_thresh
          rain_thresh event_duration w = ((None, None), w')).
Proof.
  split; [apply find_best_dates_outcome|].
  intros e w' Hb. unfold find_best_dates, try_except. by rewrite Hb.
Qed.

(** The handler is not idle: with a duration of 0 at the first day of the
    calendar the end of the first candidate falls before [date.min], the
    body raises [OverflowError] and the caller gets [(None, None)]. *)
Lemma find_best_dates_total_witness :
  find_best_dates_body (counting stub_always) 0%Q 0%Q 1 1 32%Q 10%Q 0 (tt, [])
  = (Raise OverflowError, (tt, [mkCall 0%Q 0%Q 1 1]))
  /\ find_best_dates (counting stub_always) 0%Q 0%Q 1 1 32%Q 10%Q 0 (tt, [])
     = ((None, None), (tt, [mkCall 0%Q 0%Q 1 1])).
Proof.
  split; [reflexivity|].
  apply (find_best_dates_total (counting stub_always) 0%Q 0%Q 1 1 32%Q 10%Q 0 (tt, []))
    with (e := OverflowError).
  reflexivity.
Defined.

(** ** Determinism *)

Lemma clamp_search_end_res {W} (search_start search_end : date) (w : W) :
  clamp_search_end search_start search_end w
  = (if days_between search_end search_start >? max_search_days
     then date_add search_start max_search_days
     else Ok search_end, w).
Proof.
  unfold clamp_search_end. cbv zeta. destruct (_ >? _); [|reflexivity].
  unfold bind, lift.
  by rewrite timedelta_ok by (unfold max_search_days, MAX_DELTA_DAYS; lia).
Qed.

Section TwoSources.
Context {W1 W2 : Type}.
Variable fetch1 : Source W1.
Variable fetch2 : Source W2.
Hypothesis same_series :
  forall lat lon s e w1 w2, (fetch1 lat lon s e w1).1 = (fetch2 lat lon s e w2).1.
Variables latitude longitude : Q.
Variable search_start : date.
Variables hot_thresh rain_thresh : Q.
Variable event_duration : Z.

Lemma for_each_agree (offsets : list Z) (st : Locals) (w1 : W1) (w2 : W2) :
  (for_each (loop_body fetch1 latitude longitude search_start hot_thresh rain_thresh
               event_duration) offsets st w1).1
  = (for_each (loop_body fetch2 latitude longitude search_start hot_thresh rain_thresh
                 event_duration) offsets st w2).1.
Proof.
  revert st w1 w2. induction offsets as [|off rest IH]; intros st w1 w2;
    [reflexivity|].
  rewrite !for_each_cons.
  destruct (loop_body_cases fetch1 latitude longitude search_start hot_thresh
              rain_thresh event_duration st off w1)
    as [[e1 He1] | (A1 & A2 & A3 & A4 & Hok1)];
  destruct (loop_body_cases fetch2 latitude longitude search_start hot_thresh
              rain_thresh event_duration st off w2)
    as [[e2 He2] | (B1 & B2 & B3 & B4 & Hok2)].
  - rewrite He1, He2. by destruct e1, e2.
  - rewrite (loop_body_ok fetch1) in He1 by done. discriminate.
  - rewrite (loop_body_ok fetch2) in He2 by done. discriminate.
  - rewrite Hok1, Hok2, (same_series _ _ _ _ w1 w2). apply IH.
Qed.

End TwoSources.

(** C9. The outcome of [find_best_dates] is a function of its arguments and
    of the series the source returns for each requested window: two
    sources, each with whatever hidden state, that return the same series
    for every window give the same outcome from any two states.  In
    particular a second call against the same source, from the state the
    first call left, gives the outcome of the first. *)
Theorem find_best_dates_deterministic {W1 W2} (fetch1 : Source W1) (fetch2 : Source W2)
    (latitude longitude : Q) (search_start search_end : date)
    (hot_thresh rain_thresh : Q) (event_duration : Z) (w1 : W1) (w2 : W2) :
  (forall lat lon s e w w', (fetch1 lat lon s e w).1 = (fetch2 lat lon s e w').1) ->
  (find_best_dates fetch1 latitude longitude search_start search_end hot_thresh
     rain_thresh event_duration w1).1
  = (find_best_dates fetch2 latitude longitude search_start search_end hot_thresh
       rain_thresh event_duration w2).1.
Proof.
  intros Hsame.
  pose proof (clamp_search_end_res search_start search_end w1) as Hc1.
  pose proof (clamp_search_end_res search_start search_end w2) as Hc2.
  destruct (if days_between search_end search_start >? max_search_days
            then date_add search_start max_search_days else Ok search_end)
    as [end'|e].
  - rewrite (find_best_dates_run _ _ _ _ _ _ _ _ _ _ Hc1).
    rewrite (find_best_dates_run _ _ _ _ _ _ _ _ _ _ Hc2).
    rewrite (Hsame _ _ _ _ w1 w2). destruct (empty _); [reflexivity|].
    pose proof (for_each_agree fetch1 fetch2 Hsame latitude longitude search_start
                  hot_thresh rain_thresh event_duration
                  (candidate_offsets search_start end' event_duration)
                  (mkLocals inf None 0)
                  (fetch1 latitude longitude search_start end' w1).2
                  (fetch2 latitude longitude search_start end' w2).2) as Hag.
    destruct (for_each _ _ _ (fetch1 _ _ _ _ _).2) as [[st1|e1] v1];
      destruct (for_each _ _ _ (fetch2 _ _ _ _ _).2) as [[st2|e2] v2];
      cbn [fst] in *; congruence.
  - rewrite (find_best_dates_clamp_raises _ _ _ _ _ _ _ _ _ _ Hc1).
    by rewrite (find_best_dates_clamp_raises _ _ _ _ _ _ _ _ _ _ Hc2).
Qed.

(** Two calls in a row against a source that counts its requests. *)
Lemma find_best_dates_deterministic_witness :
  (find_best_dates counter_source 0%Q 0%Q 100 115 32%Q 10%Q 5 0%nat).1
  = (find_best_dates counter_source 0%Q 0%Q 100 115 32%Q 10%Q 5
       (find_best_dates counter_source 0%Q 0%Q 100 115 32%Q 10%Q 5 0%nat).2).1.
Proof.
  apply (find_best_dates_deterministic counter_source counter_source).
  intros lat lon s e w w'. reflexivity.
Defined.

(** ** The loop against a pure stub *)

Lemma score_lt_above (score : Z) (best : Score) :
  score_lt score best = true <-> Score_above score best.
Proof. destruct best as [|b]; cbn; [tauto|]. apply Z.ltb_lt. Qed.

Lemma step_empty (hot_thresh rain_thresh : Q) (st : Locals) (cs : date) :
  step hot_thresh rain_thresh st cs []
  = mkLocals (best_score st) (best_start st) (iterations st + 1).
Proof. reflexivity. Qed.

Lemma step_better (hot_thresh rain_thresh : Q) (st : Locals) (cs : date) (df : DataFrame) :
  empty df = false ->
  Score_above (risk_score df hot_thresh rain_thresh) (best_score st) ->
  step hot_thresh rain_thresh st cs df
  = mkLocals (fin (risk_score df hot_thresh rain_thresh)) (Some cs) (iterations st + 1).
Proof.
  intros Hne Hab. unfold step. rewrite Hne.
  by rewrite (proj2 (score_lt_above _ _) Hab).
Qed.

Lemma step_not_better (hot_thresh rain_thresh : Q) (st : Locals) (cs : date)
    (df : DataFrame) (c : Z) :
  best_score st = fin c -> c <= risk_score df hot_thresh rain_thresh ->
  step hot_thresh rain_thresh st cs df
  = mkLocals (best_score st) (best_start st) (iterations st + 1).
Proof.
  intros Hb Hle. unfold step. destruct (empty df); [reflexivity|].
  rewrite Hb. cbn [score_lt]. by rewrite (proj2 (Z.ltb_ge _ _) Hle).
Qed.

Section PureStub.
Variable stub : Q -> Q -> date -> date -> DataFrame.
Variables latitude longitude : Q.
Variable search_start : date.
Variables hot_thresh rain_thresh : Q.
Variable event_duration : Z.

Local Abbreviation frame :=
  (candidate_frame stub latitude longitude search_start event_duration).
Local Abbreviation score :=
  (candidate_score stub latitude longitude search_start hot_thresh
               rain_thresh event_duration).
Local Abbreviation run :=
  (scan stub latitude longitude search_start hot_thresh rain_thresh
             event_duration).

Lemma scan_cons (off : Z) (rest : list Z) (st : Locals) :
  run (off :: rest) st
  = run rest (step hot_thresh rain_thresh st (search_start + off) (frame off)).
Proof. reflexivity. Qed.

Lemma scan_app (l1 l2 : list Z) (st : Locals) :
  run (l1 ++ l2) st = run l2 (run l1 st).
Proof. unfold scan. apply fold_left_app. Qed.

Lemma scan_iterations (offsets : list Z) (st : Locals) :
  iterations (run offsets st) = iterations st + Z.of_nat (length offsets).
Proof.
  revert st. induction offsets as [|off rest IH]; intros st.
  - cbn. lia.
  - rewrite scan_cons, IH. cbn [length].
    unfold step. destruct (empty _); [cbn; lia|].
    destruct (score_lt _ _); cbn; lia.
Qed.

(** Candidates that all score above [c] leave the best score above [c]. *)
Lemma scan_above (c : Z) (offsets : list Z) (st : Locals) :
  Score_above c (best_score st) ->
  (forall off, off ∈ offsets -> empty (frame off) = false -> c < score off) ->
  Score_above c (best_score (run offsets st)).
Proof.
  revert st. induction offsets as [|off rest IH]; intros st Hab Hall; [exact Hab|].
  rewrite scan_cons. apply IH; [|intros o Ho; apply Hall; by right].
  unfold step. destruct (empty (frame off)) eqn:Hne; [exact Hab|].
  destruct (score_lt _ _); [|exact Hab].
  cbn. apply Hall; [left|exact Hne].
Qed.

(** Candidates that do not score below the best so far change nothing. *)
Lemma scan_keep (c : Z) (offsets : list Z) (st : Locals) :
  best_score st = fin c ->
  (forall off, off ∈ offsets -> empty (frame off) = false -> c <= score off) ->
  best_score (run offsets st) = fin c /\ best_start (run offsets st) = best_start st.
Proof.
  revert st. induction offsets as [|off rest IH]; intros st Hb Hall; [done|].
  rewrite scan_cons.
  destruct (empty (frame off)) eqn:Hne.
  - destruct (frame off); [|discriminate]. rewrite step_empty.
    apply (IH (mkLocals _ _ _)); [exact Hb|intros o Ho; apply Hall; by right].
  - rewrite (step_not_better _ _ _ _ _ c Hb) by (apply Hall; [left|exact Hne]).
    apply (IH (mkLocals _ _ _)); [exact Hb|intros o Ho; apply Hall; by right].
Qed.

(** The recorded start is the one the loop began with or the start of a
    candidate that has data. *)
Lemma scan_origin (offsets : list Z) (st : Locals) :
  best_start (run offsets st) = best_start st
  \/ exists off, off ∈ offsets /\ empty (frame off) = false
       /\ best_start (run offsets st) = Some (search_start + off).
Proof.
  revert st. induction offsets as [|off rest IH]; intros st; [by left|].
  rewrite scan_cons.
  destruct (IH (step hot_thresh rain_thresh st (search_start + off) (frame off)))
    as [Heq | (o & Ho & Hne & Heq)].
  - rewrite Heq. unfold step. destruct (empty (frame off)) eqn:Hne; [by left|].
    destruct (score_lt _ _); [|by left].
    right. exists off. split; [left|done].
  - right. exists o. split; [by right|done].
Qed.

(** Candidates without data are skipped: the best score and the best
    start are those of the loop over the candidates that have data. *)
Lemma scan_with_data (offsets : list Z) (st st' : Locals) :
  best_score st = best_score st' -> best_start st = best_start st' ->
  best_score (run offsets st)
  = best_score (run (with_data stub latitude longitude search_start event_duration
                       offsets) st')
  /\ best_start (run offsets st)
     = best_start (run (with_data stub latitude longitude search_start
                          event_duration offsets) st').
Proof.
  revert st st'. induction offsets as [|off rest IH]; intros st st' Hsc Hst; [done|].
  rewrite scan_cons. unfold with_data.
  destruct (empty (frame off)) eqn:Hne.
  - rewrite filter_cons_False by congruence.
    apply IH; unfold step; by rewrite Hne.
  - rewrite filter_cons_True by exact Hne. rewrite scan_cons.
    apply IH; unfold step; rewrite Hne, Hsc; by destruct (score_lt _ _).
Qed.

(** The first candidate of minimal score among those with data wins. *)
Lemma scan_first_minimum (before after : list Z) (k : Z) :
  empty (frame k) = false ->
  (forall j, j ∈ before -> empty (frame j) = false -> score k < score j) ->
  (forall j, j ∈ after -> empty (frame j) = false -> score k <= score j) ->
  best_start (run (before ++ k :: after) (mkLocals inf None 0))
  = Some (search_start + k).
Proof.
  intros Hne Hbefore Hafter. rewrite scan_app, scan_cons.
  pose proof (scan_above (score k) before (mkLocals inf None 0) I Hbefore) as Hab.
  rewrite step_better by done.
  destruct (scan_keep (score k) after
              (mkLocals (fin (score k)) (Some (search_start + k))
                 (iterations (run before (mkLocals inf None 0)) + 1))
              eq_refl Hafter) as [_ Hk].
  exact Hk.
Qed.

Context {W : Type}.

Local Abbreviation body :=
  (loop_body (instrument (@pure_source W stub)) latitude longitude
              search_start hot_thresh rain_thresh event_duration).
Local Abbreviation call_of :=
  (candidate_call latitude longitude search_start event_duration).

(** The monadic loop against the stub is the fold, and it logs one
    request per offset. *)
Lemma for_each_pure (offsets : list Z) (st : Locals) (wl : W * list Call) :
  (forall off, off ∈ offsets ->
     Z.abs off <= MAX_DELTA_DAYS
     /\ Z.abs (event_duration - 1) <= MAX_DELTA_DAYS
     /\ valid_date (search_start + off)
     /\ valid_date (search_start + off + (event_duration - 1))) ->
  for_each body offsets st wl
  = (Ok (run offsets st), (wl.1, wl.2 ++ map call_of offsets)).
Proof.
  revert st wl. induction offsets as [|off rest IH]; intros st wl Hok.
  - cbn. rewrite app_nil_r. by destruct wl.
  - rewrite for_each_cons.
    destruct (Hok off) as (H1 & H2 & H3 & H4); [left|].
    rewrite loop_body_ok by done.
    rewrite IH by (intros o Ho; apply Hok; by right).
    cbn [instrument pure_source fst snd map]. rewrite scan_cons.
    by rewrite <- app_assoc.
Qed.

(** The whole call against the stub, for valid dates and a loop that
    cannot overflow. *)
Lemma find_best_dates_pure (search_end : date) (wl : W * list Call) :
  valid_date search_start -> valid_date search_end ->
  (forall off,
     off ∈ candidate_offsets search_start (clamped_end search_start search_end)
             event_duration ->
     Z.abs off <= MAX_DELTA_DAYS
     /\ Z.abs (event_duration - 1) <= MAX_DELTA_DAYS
     /\ valid_date (search_start + off)
     /\ valid_date (search_start + off + (event_duration - 1))) ->
  find_best_dates (instrument (pure_source stub)) latitude longitude search_start
    search_end hot_thresh rain_thresh event_duration wl
  = if empty (stub latitude longitude search_start
                (clamped_end search_start search_end))
    then ((None, None),
          (wl.1, wl.2 ++ [mkCall latitude longitude search_start
                             (clamped_end search_start search_end)]))
    else (window_of event_duration
            (best_start
               (run (candidate_offsets search_start
                       (clamped_end search_start search_end) event_duration)
                  (mkLocals inf None 0))),
          (wl.1,
           wl.2
           ++ mkCall latitude longitude search_start
                (clamped_end search_start search_end)
           :: map call_of
                (candidate_offsets search_start
                   (clamped_end search_start search_end) event_duration))).
Proof.
  intros Hs He Hok.
  rewrite (find_best_dates_run _ _ _ _ _ _ _ _ _ _
             (clamp_search_end_ok search_start search_end wl Hs He)).
  cbn [instrument pure_source fst snd].
  destruct (empty _); [reflexivity|].
  rewrite for_each_pure by exact Hok.
  cbn [fst snd]. by rewrite <- app_assoc.
Qed.

End PureStub.

(** ** Which window is returned *)

(** C3. Against a pure stub, with valid dates, a positive duration and a
    feasibility frame that has data: if the candidate at offset [k] has
    data, no candidate with data scores less, and every candidate with
    data at a lower offset scores strictly more, then the window starting
    [k] days after [search_start] is returned.  Among the candidates of
    minimal score the lowest offset wins. *)
Theorem find_best_dates_first_minimum (stub : Q -> Q -> date -> date -> DataFrame)
    (latitude longitude : Q) (search_start search_end : date)
    (hot_thresh rain_thresh : Q) (event_duration k : Z) (log : list Call) :
  valid_date search_start -> valid_date search_end -> 1 <= event_duration ->
  empty (stub latitude longitude search_start (clamped_end search_start search_end))
  = false ->
  k ∈ candidate_offsets search_start (clamped_end search_start search_end)
        event_duration ->
  empty (candidate_frame stub latitude longitude search_start event_duration k) = false ->
  (forall j,
     j ∈ candidate_offsets search_start (clamped_end search_start search_end)
           event_duration ->
     empty (candidate_frame stub latitude longitude search_start event_duration j)
     = false ->
     candidate_score stub latitude longitude search_start hot_thresh rain_thresh
       event_duration k
     <= candidate_score stub latitude longitude search_start hot_thresh rain_thresh
          event_duration j
     /\ (j < k ->
         candidate_score stub latitude longitude search_start hot_thresh rain_thresh
           event_duration k
         < candidate_score stub latitude longitude search_start hot_thresh rain_thresh
             event_duration j)) ->
  (find_best_dates (counting stub) latitude longitude search_start search_end
     hot_thresh rain_thresh event_duration (tt, log)).1
  = (Some (search_start + k), Some (search_start + k + (event_duration - 1))).
Proof.
  intros Hs He Hd Hfeas Hk Hne Hmin.
  pose proof (clamped_end_valid _ _ Hs He) as He'.
  unfold counting. rewrite find_best_dates_pure;
    [| done | done
     | intros off Hoff;
       destruct (candidates_in_range _ _ _ _ Hs He' Hd Hoff) as (?&?&?&?&_); done].
  rewrite Hfeas. cbn [fst].
  destruct (candidates_in_range _ _ _ _ Hs He' Hd Hk) as (_ & Hdur & _ & Hce & _).
  pose proof Hk as Hk'. apply elem_of_candidate_offsets in Hk'.
  destruct (candidate_offsets_split _ _ _ _ Hk') as (after & -> & Hafter).
  rewrite scan_first_minimum; [by apply window_of_ok | exact Hne | |].
  - intros j Hj Hjne. apply elem_of_seqZ in Hj.
    apply Hmin; [apply elem_of_candidate_offsets; lia | exact Hjne | lia].
  - intros j Hj Hjne. apply Hafter in Hj.
    apply Hmin; [apply elem_of_candidate_offsets; lia | exact Hjne].
Qed.

(** Candidates at offsets 3 and 7 score 2, all others score 3: the window
    at offset 3 is returned. *)
Lemma find_best_dates_first_minimum_witness :
  candidate_score stub_tie 0%Q 0%Q 100 32%Q 10%Q 5 3 = 2
  /\ candidate_score stub_tie 0%Q 0%Q 100 32%Q 10%Q 5 7 = 2
  /\ (find_best_dates (counting stub_tie) 0%Q 0%Q 100 115 32%Q 10%Q 5 (tt, [])).1
     = (Some 103, Some 107).
Proof.
  split; [reflexivity|split; [reflexivity|]].
  apply (find_best_dates_first_minimum stub_tie 0%Q 0%Q 100 115 32%Q 10%Q 5 3 []).
  - unfold valid_date, MINORDINAL, MAXORDINAL. lia.
  - unfold valid_date, MINORDINAL, MAXORDINAL. lia.
  - lia.
  - reflexivity.
  - apply elem_of_candidate_offsets. vm_compute. split; [discriminate|reflexivity].
  - reflexivity.
  - intros j Hj _. apply elem_of_candidate_offsets in Hj.
    change (Z.min (clamped_end 100 115 - 100 - 5 + 1) max_iterations) with 11 in Hj.
    assert (Hcases : j = 0 \/ j = 1 \/ j = 2 \/ j = 3 \/ j = 4 \/ j = 5 \/ j = 6
                     \/ j = 7 \/ j = 8 \/ j = 9 \/ j = 10) by lia.
    destruct Hcases as [-> | [-> | [-> | [-> | [-> | [-> | [-> | [-> | [-> | [-> | ->]]]]]]]]]];
      vm_compute; split; intros; congruence.
Defined.

(** ** Empty series *)

(** C6. With valid dates: when the feasibility fetch over the clamped
    range returns an empty frame, whatever the source, the outcome is
    [(None, None)] and the feasibility request is the only one.  When it
    has data (pure stub, positive duration), every candidate offset is
    requested, also after candidates without data; the outcome is that of
    the loop over the candidates that have data; and the start of a
    candidate without data is never returned. *)
Theorem find_best_dates_empty_series {W} (fetch : Source W)
    (stub : Q -> Q -> date -> date -> DataFrame) (latitude longitude : Q)
    (search_start search_end : date) (hot_thresh rain_thresh : Q)
    (event_duration : Z) (w : W) :
  valid_date search_start -> valid_date search_end ->
  (empty (fetch latitude longitude search_start
            (clamped_end search_start search_end) w).1 = true ->
   (find_best_dates (instrument fetch) latitude longitude search_start search_end
      hot_thresh rain_thresh event_duration (w, [])).1 = (None, None)
   /\ (find_best_dates (instrument fetch) latitude longitude search_start search_end
         hot_thresh rain_thresh event_duration (w, [])).2.2
      = [mkCall latitude longitude search_start (clamped_end search_start search_end)])
  /\ (1 <= event_duration ->
      empty (stub latitude longitude search_start
               (clamped_end search_start search_end)) = false ->
      (find_best_dates (counting stub) latitude longitude search_start search_end
         hot_thresh rain_thresh event_duration (tt, [])).2.2
      = mkCall latitude longitude search_start (clamped_end search_start search_end)
        :: map (candidate_call latitude longitude search_start event_duration)
             (candidate_offsets search_start (clamped_end search_start search_end)
                event_duration)
      /\ (find_best_dates (counting stub) latitude longitude search_start search_end
            hot_thresh rain_thresh event_duration (tt, [])).1
         = window_of event_duration
             (best_start
                (scan stub latitude longitude search_start hot_thresh rain_thresh
                   event_duration
                   (with_data stub latitude longitude search_start event_duration
                      (candidate_offsets search_start
                         (clamped_end search_start search_end) event_duration))
                   (mkLocals inf None 0)))
      /\ forall k,
           k ∈ candidate_offsets search_start (clamped_end search_start search_end)
                 event_duration ->
           empty (candidate_frame stub latitude longitude search_start event_duration k)
           = true ->
           (find_best_dates (counting stub) latitude longitude search_start search_end
              hot_thresh rain_thresh event_duration (tt, [])).1.1
           <> Some (search_start + k)).
Proof.
  intros Hs He. pose proof (clamped_end_valid _ _ Hs He) as He'. split.
  - intros Hempty.
    rewrite (find_best_dates_run _ _ _ _ _ _ _ _ _ _
               (clamp_search_end_ok search_start search_end (w, []) Hs He)).
    cbn [instrument fst snd]. by rewrite Hempty.
  - intros Hd Hfeas. unfold counting. rewrite find_best_dates_pure;
      [| done | done
       | intros off Hoff;
         destruct (candidates_in_range _ _ _ _ Hs He' Hd Hoff) as (?&?&?&?&_); done].
    rewrite Hfeas. cbn [fst snd app]. split; [reflexivity|split].
    + f_equal. by apply scan_with_data.
    + intros k Hk Hke Hsel.
      destruct (scan_origin stub latitude longitude search_start hot_thresh rain_thresh
                  event_duration
                  (candidate_offsets search_start (clamped_end search_start search_end)
                     event_duration) (mkLocals inf None 0))
        as [Hnone | (off & Hoff & Hne & Hbest)].
      * rewrite Hnone in Hsel. discriminate.
      * rewrite Hbest in Hsel.
        destruct (window_of_cases event_duration (Some (search_start + off)))
          as [Hw | (bs & [= <-] & Hw)]; rewrite Hw in Hsel; [discriminate|].
        cbn in Hsel. assert (off = k) as -> by (injection Hsel; lia). congruence.
Qed.

(** The service is down: one request, [(None, None)].  The candidate at
    offset 0 has no data: both candidates are requested and the one at
    offset 1 is returned. *)
Lemma find_best_dates_empty_series_witness :
  ((find_best_dates (instrument (get_historical_data_for_event http_down)) 0%Q 0%Q
      100 102 32%Q 10%Q 1 (tt, [])).1 = (None, None)
   /\ (find_best_dates (instrument (get_historical_data_for_event http_down)) 0%Q 0%Q
         100 102 32%Q 10%Q 1 (tt, [])).2.2 = [mkCall 0%Q 0%Q 100 102])
  /\ (find_best_dates (counting stub_gap) 0%Q 0%Q 100 102 32%Q 10%Q 1 (tt, [])).2.2
     = [mkCall 0%Q 0%Q 100 102; mkCall 0%Q 0%Q 100 100; mkCall 0%Q 0%Q 101 101]
  /\ (find_best_dates (counting stub_gap) 0%Q 0%Q 100 102 32%Q 10%Q 1 (tt, [])).1
     = (Some 101, Some 101)
  /\ (find_best_dates (counting stub_gap) 0%Q 0%Q 100 102 32%Q 10%Q 1 (tt, [])).1.1
     <> Some (100 + 0).
Proof.
  assert (V100 : valid_date 100) by (unfold valid_date, MINORDINAL, MAXORDINAL; lia).
  assert (V102 : valid_date 102) by (unfold valid_date, MINORDINAL, MAXORDINAL; lia).
  destruct (find_best_dates_empty_series (get_historical_data_for_event http_down)
              stub_gap 0%Q 0%Q 100 102 32%Q 10%Q 1 tt V100 V102) as [Hfeas Hcand].
  split; [exact (Hfeas eq_refl)|].
  assert (Hd : 1 <= 1) by lia.
  destruct (Hcand Hd eq_refl) as (Hlog & Hout & Hskip).
  split; [exact Hlog|split; [exact Hout|]].
  apply Hskip; [|reflexivity].
  apply elem_of_candidate_offsets. vm_compute. split; [discriminate|reflexivity].
Defined.

(** ** Clamping *)

(** C4. With valid dates, a range of more than 90 days is cut to end 90
    days after its start before anything else happens: the call behaves,
    outcome and requests alike, as the call on [search_start ..
    search_start + 90]; its first request is the feasibility fetch over
    that range; and with a positive duration every requested window lies
    inside it. *)
Theorem find_best_dates_clamps {W} (fetch : Source W) (latitude longitude : Q)
    (search_start search_end : date) (hot_thresh rain_thresh : Q)
    (event_duration : Z) (w : W) :
  valid_date search_start -> valid_date search_end ->
  days_between search_end search_start > 90 ->
  find_best_dates (instrument fetch) latitude longitude search_start search_end
    hot_thresh rain_thresh event_duration (w, [])
  = find_best_dates (instrument fetch) latitude longitude search_start
      (search_start + 90) hot_thresh rain_thresh event_duration (w, [])
  /\ (exists rest,
        (find_best_dates (instrument fetch) latitude longitude search_start search_end
           hot_thresh rain_thresh event_duration (w, [])).2.2
        = mkCall latitude longitude search_start (search_start + 90) :: rest)
  /\ (1 <= event_duration ->
      Forall (fun c => search_start <= call_start c /\ call_end c <= search_start + 90)
        (find_best_dates (instrument fetch) latitude longitude search_start search_end
           hot_thresh rain_thresh event_duration (w, [])).2.2).
Proof.
  intros Hs He Hlong.
  assert (Hc : clamped_end search_start search_end = search_start + 90).
  { unfold clamped_end, max_search_days.
    destruct (_ >? _) eqn:E; [reflexivity|].
    rewrite Z.gtb_ltb in E. apply Z.ltb_ge in E. lia. }
  assert (Hc' : clamp_search_end search_start (search_start + 90) (w, @nil Call)
                = (Ok (search_start + 90), (w, []))).
  { unfold clamp_search_end, days_between, max_search_days. cbv zeta.
    destruct (_ >? _) eqn:E; [|reflexivity]. apply Z.gtb_lt in E. lia. }
  pose proof (clamp_search_end_ok search_start search_end (w, @nil Call) Hs He)
    as Hclamp.
  rewrite Hc in Hclamp.
  destruct (find_best_dates_log_valid fetch latitude longitude search_start hot_thresh
              rain_thresh event_duration search_end (w, []) Hs He)
    as (walked & Hpre & Hlog).
  rewrite Hc in Hpre, Hlog. cbn [snd app] in Hlog.
  split; [|split].
  - rewrite (find_best_dates_run _ _ _ _ _ _ _ _ _ _ Hclamp).
    by rewrite (find_best_dates_run _ _ _ _ _ _ _ _ _ _ Hc').
  - eexists. exact Hlog.
  - intros Hd. rewrite Hlog. constructor; [cbn; lia|].
    apply Forall_forall. intros c Hin.
    apply list_elem_of_In, in_map_iff in Hin as (off & <- & Hoff).
    apply list_elem_of_In in Hoff.
    assert (Hoff' : off ∈ candidate_offsets search_start (search_start + 90)
                            event_duration).
    { destruct Hpre as [tl ->]. apply elem_of_app. by left. }
    apply elem_of_candidate_offsets in Hoff'. cbn. lia.
Qed.

Lemma find_best_dates_clamps_witness :
  find_best_dates (counting stub_always) 0%Q 0%Q 100 299 32%Q 10%Q 1 (tt, [])
  = find_best_dates (counting stub_always) 0%Q 0%Q 100 (100 + 90) 32%Q 10%Q 1 (tt, [])
  /\ (exists rest,
        (find_best_dates (counting stub_always) 0%Q 0%Q 100 299 32%Q 10%Q 1 (tt, [])).2.2
        = mkCall 0%Q 0%Q 100 (100 + 90) :: rest)
  /\ Forall (fun c => 100 <= call_start c /\ call_end c <= 100 + 90)
       (find_best_dates (counting stub_always) 0%Q 0%Q 100 299 32%Q 10%Q 1 (tt, [])).2.2.
Proof.
  assert (V100 : valid_date 100) by (unfold valid_date, MINORDINAL, MAXORDINAL; lia).
  assert (V299 : valid_date 299) by (unfold valid_date, MINORDINAL, MAXORDINAL; lia).
  assert (Hlong : days_between 299 100 > 90) by (unfold days_between; lia).
  destruct (find_best_dates_clamps (pure_source stub_always) 0%Q 0%Q 100 299 32%Q 10%Q
              1 tt V100 V299 Hlong) as (H1 & H2 & H3).
  split; [exact H1|split; [exact H2|]]. apply H3. lia.
Defined.

(** ** The number of candidates *)

(** C1. What the code does where the design document counts the days of
    the range inclusively: the loop walks
    [max 0 (min ((search_end - search_start).days - event_duration + 1) 50)]
    offsets, the difference of the two dates standing where the number of
    days of the range ([difference + 1]) is meant.  A range that spans
    exactly [event_duration] days therefore has no candidate at all: for
    a duration of 5 and the five days 100..104, with data in every
    window, the only request is the feasibility fetch and the outcome is
    [(None, None)]. *)
Theorem find_best_dates_exact_fit_has_no_candidate :
  (forall search_start search_end event_duration,
     length (candidate_offsets search_start search_end event_duration)
     = Z.to_nat (Z.min (days_between search_end search_start - event_duration + 1) 50))
  /\ (forall search_start event_duration,
        candidate_offsets search_start (search_start + (event_duration - 1))
          event_duration = [])
  /\ days_between 104 100 + 1 = 5
  /\ find_best_dates (counting stub_always) 0%Q 0%Q 100 104 32%Q 10%Q 5 (tt, [])
     = ((None, None), (tt, [mkCall 0%Q 0%Q 100 104])).
Proof.
  split; [|split; [|split; reflexivity]].
  - intros. apply candidate_offsets_length.
  - intros search_start event_duration.
    unfold candidate_offsets, range, days_between, max_iterations.
    apply seqZ_nil. lia.
Qed.

(** ** Invalid arguments *)

(** [find_best_dates] does not fail fast: called with a range that ends
    before it starts, it sends the feasibility request and returns
    [(None, None)], the value it returns when no data is found. *)
Lemma find_best_dates_does_not_fail_fast :
  InvalidInput 110 100 1
  /\ ~ fails_fast (find_best_dates (counting stub_always) 0%Q 0%Q 110 100 32%Q 10%Q 1
                     (tt, [])).
Proof.
  split; [right; lia|]. intros [Hout _]. apply Hout. reflexivity.
Qed.

(** C2, as the code has it. [find_best_dates] does not check its
    arguments.  With valid dates, a call with [event_duration < 1] or
    [search_start > search_end] starts like any other, with the
    feasibility request over the clamped range, so the data source is
    contacted; when the range ends before it starts and the duration is
    positive, that request is the only one and the outcome is
    [(None, None)], the value also returned when no data is found; and
    when the duration is below 1, a window that comes back ends before it
    starts. *)
Theorem find_best_dates_invalid_input_is_searched {W} (fetch : Source W)
    (latitude longitude : Q) (search_start search_end : date)
    (hot_thresh rain_thresh : Q) (event_duration : Z) (w : W) :
  valid_date search_start -> valid_date search_end ->
  InvalidInput search_start search_end event_duration ->
  (exists rest,
     (find_best_dates (instrument fetch) latitude longitude search_start search_end
        hot_thresh rain_thresh event_duration (w, [])).2.2
     = mkCall latitude longitude search_start (clamped_end search_start search_end)
       :: rest)
  /\ (search_start > search_end -> 1 <= event_duration ->
      (find_best_dates (instrument fetch) latitude longitude search_start search_end
         hot_thresh rain_thresh event_duration (w, [])).1 = (None, None)
      /\ (find_best_dates (instrument fetch) latitude longitude search_start search_end
            hot_thresh rain_thresh event_duration (w, [])).2.2
         = [mkCall latitude longitude search_start search_end])
  /\ (event_duration < 1 ->
      forall bs be,
        (find_best_dates (instrument fetch) latitude longitude search_start search_end
           hot_thresh rain_thresh event_duration (w, [])).1 = (Some bs, Some be) ->
        be < bs).
Proof.
  intros Hs He _. split; [|split].
  - destruct (find_best_dates_log_valid fetch latitude longitude search_start hot_thresh
                rain_thresh event_duration search_end (w, []) Hs He)
      as (walked & _ & Hlog).
    eexists. exact Hlog.
  - intros Hrev Hd.
    assert (Hc : clamped_end search_start search_end = search_end).
    { unfold clamped_end, days_between, max_search_days.
      destruct (_ >? _) eqn:E; [|reflexivity]. apply Z.gtb_lt in E. lia. }
    pose proof (clamp_search_end_ok search_start search_end (w, @nil Call) Hs He)
      as Hclamp.
    rewrite Hc in Hclamp.
    rewrite (find_best_dates_run _ _ _ _ _ _ _ _ _ _ Hclamp).
    assert (Hnil : candidate_offsets search_start search_end event_duration = []).
    { unfold candidate_offsets, range, days_between, max_iterations.
      apply seqZ_nil. lia. }
    rewrite Hnil. cbn [instrument fst snd for_each ret window_of best_start app].
    by destruct (empty _).
  - intros Hd bs be Hout.
    destruct (find_best_dates_outcome (instrument fetch) latitude longitude search_start
                search_end hot_thresh rain_thresh event_duration (w, []))
      as [Hnone | (bs' & Hwin)]; rewrite Hout in *; [discriminate|].
    injection Hwin as -> ->. lia.
Qed.

Lemma find_best_dates_invalid_input_is_searched_witness :
  (exists rest,
     (find_best_dates (counting stub_always) 0%Q 0%Q 110 100 32%Q 10%Q 1 (tt, [])).2.2
     = mkCall 0%Q 0%Q 110 (clamped_end 110 100) :: rest)
  /\ (find_best_dates (counting stub_always) 0%Q 0%Q 110 100 32%Q 10%Q 1 (tt, [])).1
     = (None, None)
  /\ (find_best_dates (counting stub_always) 0%Q 0%Q 110 100 32%Q 10%Q 1 (tt, [])).2.2
     = [mkCall 0%Q 0%Q 110 100].
Proof.
  assert (V110 : valid_date 110) by (unfold valid_date, MINORDINAL, MAXORDINAL; lia).
  assert (V100 : valid_date 100) by (unfold valid_date, MINORDINAL, MAXORDINAL; lia).
  assert (Hinv : InvalidInput 110 100 1) by (right; lia).
  destruct (find_best_dates_invalid_input_is_searched (pure_source stub_always)
              0%Q 0%Q 110 100 32%Q 10%Q 1 tt V110 V100 Hinv) as (Hfirst & Hrev & _).
  split; [exact Hfirst|]. apply Hrev; lia.
Defined.

(** A duration of 0 is searched as well, and a window that ends before it
    starts comes back. *)
Example find_best_dates_zero_duration :
  find_best_dates (counting stub_always) 0%Q 0%Q 100 100 32%Q 10%Q 0 (tt, [])
  = ((Some 100, Some 99), (tt, [mkCall 0%Q 0%Q 100 100; mkCall 0%Q 0%Q 100 99])).
Proof. reflexivity. Qed.

(* ===================================================================== *)
(** * Further properties of the search *)
(* ===================================================================== *)

Section Invariants.
Context {W : Type}.
Variable fetch : Source W.
Variables latitude longitude : Q.
Variable search_start : date.
Variables hot_thresh rain_thresh : Q.
Variable event_duration : Z.

Local Abbreviation body :=
  (loop_body fetch latitude longitude search_start hot_thresh rain_thresh
     event_duration).

(** The body of the [try] once the clamp is known. *)
Lemma find_best_dates_body_run (search_end search_end' : date) (w : W) :
  clamp_search_end search_start search_end w = (Ok search_end', w) ->
  find_best_dates_body fetch latitude longitude search_start search_end hot_thresh
    rain_thresh event_duration w
  = if empty (fetch latitude longitude search_start search_end' w).1
    then (Ok (None, None), (fetch latitude longitude search_start search_end' w).2)
    else
      match for_each body (candidate_offsets search_start search_end' event_duration)
              (mkLocals inf None 0)
              (fetch latitude longitude search_start search_end' w).2 with
      | (Ok st, w2) => (finish event_duration (best_start st), w2)
      | (Raise e, w2) => (Raise e, w2)
      end.
Proof.
  intros Hc. unfold find_best_dates_body.
  unfold bind at 1. rewrite Hc. unfold bind at 1, call_fetch at 1.
  destruct (fetch _ _ _ _ w) as [df w1]. cbn [fst snd].
  destruct (empty df); [reflexivity|].
  unfold bind at 1.
  destruct (for_each _ _ _ w1) as [[st|e] w2]; [|reflexivity].
  unfold finish. destruct (best_start st) as [bs|]; [|reflexivity].
  unfold bind at 1, lift at 1. destruct (timedelta _) as [td|]; [|reflexivity].
  unfold bind, lift, ret. by destruct (date_add bs td).
Qed.

(** When no date computation of the loop overflows, the loop ends normally. *)
Lemma for_each_returns (offsets : list Z) (st : Locals) (w : W) :
  (forall off, off ∈ offsets ->
     Z.abs off <= MAX_DELTA_DAYS
     /\ Z.abs (event_duration - 1) <= MAX_DELTA_DAYS
     /\ valid_date (search_start + off)
     /\ valid_date (search_start + off + (event_duration - 1))) ->
  exists st' w', for_each body offsets st w = (Ok st', w').
Proof.
  revert st w. induction offsets as [|off rest IH]; intros st w Hok.
  - by exists st, w.
  - rewrite for_each_cons.
    destruct (Hok off) as (H1 & H2 & H3 & H4); [left|].
    rewrite loop_body_ok by done.
    apply IH. intros o Ho. apply Hok. by right.
Qed.

(** A property of the start dates of all offsets holds of the recorded
    best start. *)
Lemma for_each_best_start (P : date -> Prop) (offsets : list Z) (st st' : Locals)
    (w w' : W) :
  (forall off, off ∈ offsets -> P (search_start + off)) ->
  (forall bs, best_start st = Some bs -> P bs) ->
  for_each body offsets st w = (Ok st', w') ->
  forall bs, best_start st' = Some bs -> P bs.
Proof.
  revert st w. induction offsets as [|off rest IH]; intros st w Hall Hst Hrun.
  - cbn in Hrun. by injection Hrun as <- <-.
  - rewrite for_each_cons in Hrun.
    destruct (loop_body_cases fetch latitude longitude search_start hot_thresh
                rain_thresh event_duration st off w)
      as [[e He] | (_ & _ & _ & _ & Hok)].
    + rewrite He in Hrun. discriminate.
    + rewrite Hok in Hrun. eapply IH; [| |exact Hrun].
      * intros o Ho. apply Hall. by right.
      * intros bs. unfold step. destruct (empty _); [apply Hst|].
        destruct (score_lt _ _); [|apply Hst].
        cbn. intros [= <-]. apply Hall. left.
Qed.

End Invariants.

(** X1. With valid dates and a duration of at least one day nothing inside
    the [try] of [find_best_dates] raises, whatever the source returns:
    the handler of line 212 is never entered, so [(None, None)] then
    always comes from line 177 or line 210. *)
Theorem find_best_dates_valid_input_never_raises {W} (fetch : Source W)
    (latitude longitude : Q) (search_start search_end : date)
    (hot_thresh rain_thresh : Q) (event_duration : Z) (w : W) :
  valid_date search_start -> valid_date search_end -> 1 <= event_duration ->
  exists out w',
    find_best_dates_body fetch latitude longitude search_start search_end hot_thresh
      rain_thresh event_duration w = (Ok out, w').
Proof.
  intros Hs He Hd. pose proof (clamped_end_valid _ _ Hs He) as He'.
  rewrite (find_best_dates_body_run _ _ _ _ _ _ _ _ _ _
             (clamp_search_end_ok search_start search_end w Hs He)).
  destruct (empty _); [eauto|].
  set (w1 := (fetch _ _ _ _ w).2).
  assert (Hok : forall off,
             off ∈ candidate_offsets search_start (clamped_end search_start search_end)
                     event_duration ->
             Z.abs off <= MAX_DELTA_DAYS
             /\ Z.abs (event_duration - 1) <= MAX_DELTA_DAYS
             /\ valid_date (search_start + off)
             /\ valid_date (search_start + off + (event_duration - 1))).
  { intros off Hoff.
    destruct (candidates_in_range _ _ _ _ Hs He' Hd Hoff) as (?&?&?&?&_). done. }
  destruct (for_each_returns fetch latitude longitude search_start hot_thresh
              rain_thresh event_duration _ (mkLocals inf None 0) w1 Hok)
    as (st & w2 & Hrun).
  rewrite Hrun. unfold finish.
  destruct (best_start st) as [bs|] eqn:Hbs; [|eauto].
  destruct (for_each_best_start fetch latitude longitude search_start hot_thresh
              rain_thresh event_duration
              (fun b => Z.abs (event_duration - 1) <= MAX_DELTA_DAYS
                        /\ valid_date (b + (event_duration - 1)))
              (candidate_offsets search_start (clamped_end search_start search_end)
                 event_duration)
              (mkLocals inf None 0) st w1 w2) with (bs := bs) as [Hdur Hend];
    [| discriminate | exact Hrun | exact Hbs |].
  { intros off Hoff. destruct (Hok off Hoff) as (_ & A & _ & B). done. }
  rewrite timedelta_ok, date_add_ok by done. eauto.
Qed.

Lemma find_best_dates_valid_input_never_raises_witness :
  exists out w',
    find_best_dates_body (counting stub_tie) 0%Q 0%Q 100 115 32%Q 10%Q 5 (tt, [])
    = (Ok out, w').
Proof.
  apply (find_best_dates_valid_input_never_raises (counting stub_tie) 0%Q 0%Q 100 115
           32%Q 10%Q 5 (tt, [])).
  - unfold valid_date, MINORDINAL, MAXORDINAL. lia.
  - unfold valid_date, MINORDINAL, MAXORDINAL. lia.
  - lia.
Defined.

Lemma clamped_end_le (search_start search_end : date) :
  clamped_end search_start search_end <= search_end
  /\ clamped_end search_start search_end <= search_start + 90.
Proof.
  unfold clamped_end, days_between, max_search_days.
  destruct (_ >? _) eqn:E.
  - apply Z.gtb_lt in E. lia.
  - rewrite Z.gtb_ltb in E. apply Z.ltb_ge in E. lia.
Qed.

(** X2. With valid dates and a duration of at least one day, whatever the
    source returns, a window that comes back starts at one of the first
    50 days of the range, spans [event_duration] days and ends strictly
    before [search_end] and within the first 90 days of the range: the
    last day of the search range is never part of the returned window. *)
Theorem find_best_dates_window_in_range {W} (fetch : Source W)
    (latitude longitude : Q) (search_start search_end : date)
    (hot_thresh rain_thresh : Q) (event_duration : Z) (w : W) (bs be : date) :
  valid_date search_start -> valid_date search_end -> 1 <= event_duration ->
  (find_best_dates fetch latitude longitude search_start search_end hot_thresh
     rain_thresh event_duration w).1 = (Some bs, Some be) ->
  search_start <= bs <= search_start + 49
  /\ be = bs + (event_duration - 1)
  /\ bs <= be
  /\ be < search_end
  /\ be < search_start + 90.
Proof.
  intros Hs He Hd.
  rewrite (find_best_dates_run _ _ _ _ _ _ _ _ _ _
             (clamp_search_end_ok search_start search_end w Hs He)).
  destruct (empty _); [discriminate|].
  destruct (for_each _ _ _ _) as [[st|e] w2] eqn:Hrun; [|discriminate].
  cbn [fst]. intros Hwin.
  destruct (window_of_cases event_duration (best_start st))
    as [Hnone | (b & Hb & Hsome)]; rewrite Hwin in *; [discriminate|].
  injection Hsome as <- ->.
  destruct (for_each_best_start fetch latitude longitude search_start hot_thresh
              rain_thresh event_duration
              (fun b => search_start <= b <= search_start + 49
                        /\ b + (event_duration - 1)
                           < clamped_end search_start search_end)
              (candidate_offsets search_start (clamped_end search_start search_end)
                 event_duration)
              (mkLocals inf None 0) st
              (fetch latitude longitude search_start
                 (clamped_end search_start search_end) w).2 w2)
    with (bs := bs) as [Hbs Hbe];
    [| discriminate | exact Hrun | exact Hb |].
  { intros off Hoff. apply elem_of_candidate_offsets in Hoff.
    unfold max_iterations in Hoff. lia. }
  destruct (clamped_end_le search_start search_end). lia.
Qed.

Lemma find_best_dates_window_in_range_witness :
  100 <= 103 <= 100 + 49 /\ 107 = 103 + (5 - 1) /\ 103 <= 107 /\ 107 < 115
  /\ 107 < 100 + 90.
Proof.
  apply (find_best_dates_window_in_range (counting stub_tie) 0%Q 0%Q 100 115 32%Q 10%Q
           5 (tt, []) 103 107).
  - unfold valid_date, MINORDINAL, MAXORDINAL. lia.
  - unfold valid_date, MINORDINAL, MAXORDINAL. lia.
  - lia.
  - reflexivity.
Defined.

(** ** What the loop has recorded, against a pure stub *)

Section Recorded.
Variable stub : Q -> Q -> date -> date -> DataFrame.
Variables latitude longitude : Q.
Variable search_start : date.
Variables hot_thresh rain_thresh : Q.
Variable event_duration : Z.

Local Abbreviation frame :=
  (candidate_frame stub latitude longitude search_start event_duration).
Local Abbreviation score :=
  (candidate_score stub latitude longitude search_start hot_thresh rain_thresh
     event_duration).
Local Abbreviation run :=
  (scan stub latitude longitude search_start hot_thresh rain_thresh event_duration).

(** After any list of offsets: nothing is recorded and no offset had data,
    or the recorded candidate has data, scores strictly less than every
    earlier candidate with data and no more than every later one. *)
Lemma scan_recorded (offsets : list Z) :
  (best_score (run offsets (mkLocals inf None 0)) = inf
   /\ best_start (run offsets (mkLocals inf None 0)) = None
   /\ forall off, off ∈ offsets -> empty (frame off) = true)
  \/ exists before k after,
       offsets = before ++ k :: after
       /\ empty (frame k) = false
       /\ best_score (run offsets (mkLocals inf None 0)) = fin (score k)
       /\ best_start (run offsets (mkLocals inf None 0)) = Some (search_start + k)
       /\ (forall j, j ∈ before -> empty (frame j) = false -> score k < score j)
       /\ (forall j, j ∈ after -> empty (frame j) = false -> score k <= score j).
Proof.
  induction offsets as [|x l IH] using rev_ind.
  - left. split; [done|split; [done|]]. intros off Hoff. by apply elem_of_nil in Hoff.
  - rewrite scan_app. cbn [scan fold_left].
    fold (run l (mkLocals inf None 0)).
    destruct IH as [(Hsc & Hst & Hall) | (before & k & after & -> & Hk & Hsc & Hst & Hb & Ha)].
    + unfold step. destruct (empty (frame x)) eqn:Hx.
      * left. cbn. split; [done|split; [done|]].
        intros off Hoff. apply elem_of_app in Hoff as [Hoff|Hoff]; [by apply Hall|].
        apply list_elem_of_singleton in Hoff as ->. exact Hx.
      * rewrite Hsc. cbn [score_lt].
        right. exists l, x, []. cbn.
        split; [done|split; [done|split; [done|split; [done|split]]]].
        -- intros j Hj Hjne. rewrite Hall in Hjne by done. discriminate.
        -- intros j Hj. by apply elem_of_nil in Hj.
    + unfold step. destruct (empty (frame x)) eqn:Hx.
      * right. exists before, k, (after ++ [x]). cbn.
        split; [by rewrite <- app_assoc|].
        split; [done|split; [done|split; [done|split; [done|]]]].
        intros j Hj Hjne. apply elem_of_app in Hj as [Hj|Hj]; [by apply Ha|].
        apply list_elem_of_singleton in Hj as ->. congruence.
      * rewrite Hsc. cbn [score_lt].
        destruct (Z.ltb_spec (risk_score (frame x) hot_thresh rain_thresh) (score k))
          as [Hlt | Hge].
        -- right. exists (before ++ k :: after), x, []. cbn.
           split; [done|split; [done|split; [done|split; [done|split]]]].
           ++ intros j Hj Hjne. change (score x < score j).
              change (score x < score k) in Hlt.
              apply elem_of_app in Hj as [Hj|Hj].
              ** specialize (Hb j Hj Hjne). lia.
              ** apply elem_of_cons in Hj as [-> | Hj]; [lia|].
                 specialize (Ha j Hj Hjne). lia.
           ++ intros j Hj. by apply elem_of_nil in Hj.
        -- right. exists before, k, (after ++ [x]). cbn.
           split; [by rewrite <- app_assoc|].
           split; [done|split; [done|split; [done|split; [done|]]]].
           intros j Hj Hjne. apply elem_of_app in Hj as [Hj|Hj]; [by apply Ha|].
           apply list_elem_of_singleton in Hj as ->. exact Hge.
Qed.

End Recorded.

Lemma seqZ_split_order (n : Z) (before after : list Z) (k : Z) :
  seqZ 0 n = before ++ k :: after ->
  (forall j, j ∈ before -> j < k) /\ (forall j, j ∈ after -> k < j).
Proof.
  intros Hsplit.
  assert (Hk : seqZ 0 n !! length before = Some k).
  { rewrite Hsplit. by rewrite list_lookup_middle. }
  apply lookup_seqZ in Hk as [Hk _]. split; intros j Hj.
  - apply list_elem_of_lookup in Hj as [i Hi].
    pose proof (lookup_lt_Some _ _ _ Hi) as Hlt.
    assert (Hj : seqZ 0 n !! i = Some j).
    { rewrite Hsplit. by rewrite lookup_app_l. }
    apply lookup_seqZ in Hj as [-> _]. lia.
  - apply list_elem_of_lookup in Hj as [i Hi].
    assert (Hj : seqZ 0 n !! (length before + S i)%nat = Some j).
    { rewrite Hsplit. rewrite lookup_app_r by lia.
      replace (length before + S i - length before)%nat with (S i) by lia.
      exact Hi. }
    apply lookup_seqZ in Hj as [-> _]. lia.
Qed.

(** X3. Against a pure stub, with valid dates and a duration of at least
    one day: a window that comes back is a candidate of the loop that has
    data, the feasibility frame had data, no candidate with data scores
    less than it, and every candidate with data at a lower offset scores
    strictly more. *)
Theorem find_best_dates_returns_first_minimum
    (stub : Q -> Q -> date -> date -> DataFrame) (latitude longitude : Q)
    (search_start search_end : date) (hot_thresh rain_thresh : Q)
    (event_duration : Z) (log : list Call) (bs be : date) :
  valid_date search_start -> valid_date search_end -> 1 <= event_duration ->
  (find_best_dates (counting stub) latitude longitude search_start search_end
     hot_thresh rain_thresh event_duration (tt, log)).1 = (Some bs, Some be) ->
  exists k,
    bs = search_start + k
    /\ k ∈ candidate_offsets search_start (clamped_end search_start search_end)
            event_duration
    /\ empty (stub latitude longitude search_start
                (clamped_end search_start search_end)) = false
    /\ empty (candidate_frame stub latitude longitude search_start event_duration k)
       = false
    /\ forall j,
         j ∈ candidate_offsets search_start (clamped_end search_start search_end)
               event_duration ->
         empty (candidate_frame stub latitude longitude search_start event_duration j)
         = false ->
         candidate_score stub latitude longitude search_start hot_thresh rain_thresh
           event_duration k
         <= candidate_score stub latitude longitude search_start hot_thresh rain_thresh
              event_duration j
         /\ (j < k ->
             candidate_score stub latitude longitude search_start hot_thresh
               rain_thresh event_duration k
             < candidate_score stub latitude longitude search_start hot_thresh
                 rain_thresh event_duration j).
Proof.
  intros Hs He Hd. pose proof (clamped_end_valid _ _ Hs He) as He'.
  unfold counting. rewrite find_best_dates_pure;
    [| done | done
     | intros off Hoff;
       destruct (candidates_in_range _ _ _ _ Hs He' Hd Hoff) as (?&?&?&?&_); done].
  destruct (empty (stub _ _ _ _)) eqn:Hfeas; [discriminate|]. cbn [fst].
  destruct (scan_recorded stub latitude longitude search_start hot_thresh rain_thresh
              event_duration
              (candidate_offsets search_start (clamped_end search_start search_end)
                 event_duration))
    as [(_ & Hnone & _) | (before & k & after & Hsplit & Hk & _ & Hbest & Hb & Ha)].
  - rewrite Hnone. discriminate.
  - rewrite Hbest. intros Hwin.
    destruct (window_of_cases event_duration (Some (search_start + k)))
      as [Hw | (b & [= <-] & Hw)]; rewrite Hw in Hwin; [discriminate|].
    injection Hwin as <- <-.
    exists k. split; [reflexivity|].
    assert (Hin : k ∈ candidate_offsets search_start
                        (clamped_end search_start search_end) event_duration).
    { rewrite Hsplit. apply elem_of_app. right. left. }
    split; [exact Hin|split; [reflexivity|split; [exact Hk|]]].
    intros j Hj Hjne.
    destruct (seqZ_split_order _ _ _ _ Hsplit) as [Hlow Hhigh].
    rewrite Hsplit in Hj. apply elem_of_app in Hj as [Hj|Hj].
    + specialize (Hb j Hj Hjne). split; [lia|intros _; exact Hb].
    + apply elem_of_cons in Hj as [-> | Hj]; [split; lia|].
      specialize (Ha j Hj Hjne). specialize (Hhigh j Hj). split; [exact Ha|lia].
Qed.

Lemma find_best_dates_returns_first_minimum_witness :
  exists k,
    103 = 100 + k
    /\ k ∈ candidate_offsets 100 (clamped_end 100 115) 5
    /\ empty (stub_tie 0%Q 0%Q 100 (clamped_end 100 115)) = false
    /\ empty (candidate_frame stub_tie 0%Q 0%Q 100 5 k) = false
    /\ forall j,
         j ∈ candidate_offsets 100 (clamped_end 100 115) 5 ->
         empty (candidate_frame stub_tie 0%Q 0%Q 100 5 j) = false ->
         candidate_score stub_tie 0%Q 0%Q 100 32%Q 10%Q 5 k
         <= candidate_score stub_tie 0%Q 0%Q 100 32%Q 10%Q 5 j
         /\ (j < k ->
             candidate_score stub_tie 0%Q 0%Q 100 32%Q 10%Q 5 k
             < candidate_score stub_tie 0%Q 0%Q 100 32%Q 10%Q 5 j).
Proof.
  apply (find_best_dates_returns_first_minimum stub_tie 0%Q 0%Q 100 115 32%Q 10%Q 5 []
           103 107).
  - unfold valid_date, MINORDINAL, MAXORDINAL. lia.
  - unfold valid_date, MINORDINAL, MAXORDINAL. lia.
  - lia.
  - reflexivity.
Defined.

(** X4. Against a pure stub, with valid dates and a duration of at least
    one day, [(None, None)] comes back exactly when the feasibility frame
    is empty or no candidate of the loop has data; in particular whenever
    the loop has no candidate at all. *)
Theorem find_best_dates_not_found_iff
    (stub : Q -> Q -> date -> date -> DataFrame) (latitude longitude : Q)
    (search_start search_end : date) (hot_thresh rain_thresh : Q)
    (event_duration : Z) (log : list Call) :
  valid_date search_start -> valid_date search_end -> 1 <= event_duration ->
  ((find_best_dates (counting stub) latitude longitude search_start search_end
      hot_thresh rain_thresh event_duration (tt, log)).1 = (None, None)
   <-> empty (stub latitude longitude search_start
                (clamped_end search_start search_end)) = true
       \/ forall k,
            k ∈ candidate_offsets search_start (clamped_end search_start search_end)
                  event_duration ->
            empty (candidate_frame stub latitude longitude search_start event_duration
                     k) = true).
Proof.
  intros Hs He Hd. pose proof (clamped_end_valid _ _ Hs He) as He'.
  unfold counting. rewrite find_best_dates_pure;
    [| done | done
     | intros off Hoff;
       destruct (candidates_in_range _ _ _ _ Hs He' Hd Hoff) as (?&?&?&?&_); done].
  destruct (empty (stub _ _ _ _)) eqn:Hfeas; [split; [by left|done]|]. cbn [fst].
  destruct (scan_recorded stub latitude longitude search_start hot_thresh rain_thresh
              event_duration
              (candidate_offsets search_start (clamped_end search_start search_end)
                 event_duration))
    as [(_ & Hnone & Hall) | (before & k & after & Hsplit & Hk & _ & Hbest & _)].
  - rewrite Hnone. split; [by right|done].
  - rewrite Hbest.
    assert (Hin : k ∈ candidate_offsets search_start
                        (clamped_end search_start search_end) event_duration).
    { rewrite Hsplit. apply elem_of_app. right. left. }
    destruct (candidates_in_range _ _ _ _ Hs He' Hd Hin) as (_ & Hdur & _ & Hce & _).
    rewrite window_of_ok by done. split; [discriminate|].
    intros [Hf | Hall]; [discriminate|]. rewrite Hall in Hk by done. discriminate.
Qed.

Lemma find_best_dates_not_found_iff_witness :
  (find_best_dates (counting stub_always) 0%Q 0%Q 100 104 32%Q 10%Q 5 (tt, [])).1
  = (None, None).
Proof.
  apply (find_best_dates_not_found_iff stub_always 0%Q 0%Q 100 104 32%Q 10%Q 5 []).
  - unfold valid_date, MINORDINAL, MAXORDINAL. lia.
  - unfold valid_date, MINORDINAL, MAXORDINAL. lia.
  - lia.
  - right. intros k Hk. apply elem_of_candidate_offsets in Hk.
    change (Z.min (clamped_end 100 104 - 100 - 5 + 1) max_iterations) with 0 in Hk. lia.
Defined.

(** ** The score as a function of the frame and of the thresholds *)




Lemma count_above_antitone (col : Row -> Q) (t t' : Q) (df : DataFrame) :
  (t <= t')%Q ->
  series_sum (series_gt (column col df) t') <= series_sum (series_gt (column col df) t).
Proof.
  intros Hle. induction df as [|r df IH]; [done|].
  unfold column, series_gt in *. cbn [map series_sum].
  destruct (Qgtb (col r) t') eqn:E'; [|destruct (Qgtb (col r) t); lia].
  apply Qgtb_true in E'.
  assert (E : Qgtb (col r) t = true).
  { apply Qgtb_true. eapply Qle_lt_trans; [exact Hle|exact E']. }
  rewrite E. lia.
Qed.

(** X6. Raising a threshold never raises the score: with a hot threshold
    and a rain threshold at least as high, the same frame scores at most
    as much. *)
Theorem risk_score_antitone (df : DataFrame) (hot hot' rain rain' : Q) :
  (hot <= hot')%Q -> (rain <= rain')%Q ->
  risk_score df hot' rain' <= risk_score df hot rain.
Proof.
  intros Hh Hr. unfold risk_score. cbv zeta.
  pose proof (count_above_antitone temperature_2m_max hot hot' df Hh).
  pose proof (count_above_antitone precipitation_sum rain rain' df Hr).
  lia.
Qed.

Lemma risk_score_antitone_witness :
  risk_score (hot_rows 3) 36%Q 10%Q <= risk_score (hot_rows 3) 32%Q 10%Q.
Proof.
  apply (risk_score_antitone (hot_rows 3) 32%Q 36%Q 10%Q 10%Q).
  - vm_compute. discriminate.
  - vm_compute. discriminate.
Defined.

(* ===================================================================== *)
(** * Further properties of the historical fetch *)
(* ===================================================================== *)

Lemma frame_of_payload_collect (data : PowerData) :
  exists precip_data : gmap string Q,
    frame_of_payload data = collect_rows (temperature_entries data) precip_data.
Proof.
  unfold frame_of_payload, temperature_entries.
  destruct (properties data) as [props|]; [|by exists ∅].
  destruct (parameter props) as [par|]; [|by exists ∅].
  by exists (default ∅ (PRECTOTCORR par)).
Qed.

Lemma collect_rows_no_sentinel (temp_items : list (string * Q))
    (precip_data : gmap string Q) :
  Forall (fun r => ~ (temperature_2m_max r == MISSING)%Q
                   /\ ~ (precipitation_sum r == MISSING)%Q)
    (collect_rows temp_items precip_data).
Proof.
  induction temp_items as [|[d t] rest IH]; [constructor|].
  cbn [collect_rows]. rewrite Qeq_bool_decide.
  destruct (decide (t == MISSING)%Q) as [Ht | Ht].
  - by rewrite bool_decide_eq_true_2.
  - rewrite bool_decide_eq_false_2 by exact Ht. cbn [negb].
    constructor; [|exact IH]. cbn [temperature_2m_max precipitation_sum].
    split; [exact Ht|].
    rewrite Qeq_bool_decide.
    destruct (decide (default 0%Q (precip_data !! d) == MISSING)%Q) as [Hp | Hp].
    + rewrite bool_decide_eq_true_2 by exact Hp. cbn [negb]. discriminate.
    + by rewrite bool_decide_eq_false_2.
Qed.

(** X7. No row that [get_historical_data_for_event] returns carries the
    sentinel -999, neither as temperature nor as precipitation, whatever
    the service answers. *)
Theorem historical_frame_has_no_sentinel {W} (http : Http W) (latitude longitude : Q)
    (event_start event_end : date) (w : W) :
  Forall (fun r => ~ (temperature_2m_max r == MISSING)%Q
                   /\ ~ (precipitation_sum r == MISSING)%Q)
    (get_historical_data_for_event http latitude longitude event_start event_end w).1.
Proof.
  unfold get_historical_data_for_event.
  destruct (http _ _ _ _ w) as [[|data] w']; cbn [fst]; [constructor|].
  destruct (frame_of_payload_collect data) as [precip_data ->].
  apply collect_rows_no_sentinel.
Qed.

Lemma frame_of_payload_nil_iff (data : PowerData) :
  frame_of_payload data = []
  <-> Forall (fun dt => (dt.2 == MISSING)%Q) (temperature_entries data).
Proof.
  destruct (frame_of_payload_collect data) as [precip_data ->].
  pose proof (collect_rows_keys (temperature_entries data) precip_data) as Hk.
  split.
  - intros Hnil. rewrite Hnil in Hk. cbn in Hk. symmetry in Hk.
    apply Forall_forall. intros dt Hin.
    destruct (decide (dt.2 == MISSING)%Q) as [H|H]; [exact H|].
    assert (Hf : dt ∈ filter (fun dt => ~ (dt.2 == MISSING)%Q)
                       (temperature_entries data))
      by (apply list_elem_of_filter; done).
    rewrite Hk in Hf. by apply elem_of_nil in Hf.
  - intros Hall.
    assert (Hf : filter (fun dt => ~ (dt.2 == MISSING)%Q) (temperature_entries data)
                 = []).
    { clear Hk. induction Hall as [|dt l Hdt _ IH]; [done|].
      rewrite filter_cons_False; [exact IH|]. tauto. }
    rewrite Hf in Hk. by destruct (collect_rows _ _).
Qed.

(** X8. The rows of the frame come from the temperature entries alone:
    their dates are, in order, dates of [T2M_MAX] (a date that only
    [PRECTOTCORR] has gives no row), dates that are distinct in the
    payload stay distinct in the frame, and the frame is empty exactly
    when the payload has no temperature entry other than the sentinel. *)
Theorem historical_frame_follows_temperatures (data : PowerData) :
  map date_str (frame_of_payload data) `sublist_of` map fst (temperature_entries data)
  /\ (NoDup (map fst (temperature_entries data)) ->
      NoDup (map date_str (frame_of_payload data)))
  /\ (frame_of_payload data = []
      <-> Forall (fun dt => (dt.2 == MISSING)%Q) (temperature_entries data)).
Proof.
  split; [|split; [|apply frame_of_payload_nil_iff]].
  - destruct (frame_of_payload_collect data) as [precip_data ->].
    pose proof (collect_rows_keys (temperature_entries data) precip_data) as Hk.
    replace (map date_str (collect_rows (temperature_entries data) precip_data))
      with (map fst (filter (fun dt => ~ (dt.2 == MISSING)%Q)
                       (temperature_entries data)))
      by (rewrite <- Hk, map_map; reflexivity).
    apply fmap_sublist, sublist_filter.
  - intros Hnd.
    destruct (frame_of_payload_collect data) as [precip_data ->].
    pose proof (collect_rows_keys (temperature_entries data) precip_data) as Hk.
    replace (map date_str (collect_rows (temperature_entries data) precip_data))
      with (map fst (filter (fun dt => ~ (dt.2 == MISSING)%Q)
                       (temperature_entries data)))
      by (rewrite <- Hk, map_map; reflexivity).
    eapply sublist_NoDup; [exact Hnd|].
    apply fmap_sublist, sublist_filter.
Qed.

Lemma historical_frame_follows_temperatures_witness :
  NoDup (map date_str (get_historical_data_for_event http_sample 0%Q 0%Q 100 103 tt).1).
Proof.
  apply (historical_frame_follows_temperatures
           (mkPowerData (Some (mkProperties (Some
              (mkParameterSet (Some sample_temps) (Some sample_precips))))))).
  apply (bool_decide_unpack (NoDup ["20200101"; "20200102"; "20200103"; "20200104"])).
  vm_compute. exact I.
Defined.

(** X9. [find_best_dates] over the real fetch: with valid dates, when the
    request for the clamped range fails, or its payload has no
    temperature other than the sentinel, the outcome is [(None, None)]
    and the service has been asked once. *)
Theorem find_best_dates_power_no_data {W} (http : Http W) (latitude longitude : Q)
    (search_start search_end : date) (hot_thresh rain_thresh : Q)
    (event_duration : Z) (w : W) :
  valid_date search_start -> valid_date search_end ->
  match (http latitude longitude search_start
           (clamped_end search_start search_end) w).1 with
  | Failed => True
  | Json data => Forall (fun dt => (dt.2 == MISSING)%Q) (temperature_entries data)
  end ->
  find_best_dates_power http latitude longitude search_start search_end hot_thresh
    rain_thresh event_duration w
  = ((None, None),
     (http latitude longitude search_start (clamped_end search_start search_end) w).2).
Proof.
  intros Hs He Hno. unfold find_best_dates_power.
  rewrite (find_best_dates_run _ _ _ _ _ _ _ _ _ _
             (clamp_search_end_ok search_start search_end w Hs He)).
  unfold get_historical_data_for_event at 1 2 3.
  destruct (http _ _ _ _ w) as [[|data] w']; cbn [fst snd] in *; [reflexivity|].
  apply frame_of_payload_nil_iff in Hno. by rewrite Hno.
Qed.

Lemma find_best_dates_power_no_data_witness :
  find_best_dates_power http_down 0%Q 0%Q 100 299 32%Q 10%Q 5 tt = ((None, None), tt).
Proof.
  apply (find_best_dates_power_no_data http_down 0%Q 0%Q 100 299 32%Q 10%Q 5 tt).
  - unfold valid_date, MINORDINAL, MAXORDINAL. lia.
  - unfold valid_date, MINORDINAL, MAXORDINAL. lia.
  - exact I.
Defined.

(* ===================================================================== *)
(** * Properties of simulate_future_forecast *)
(* ===================================================================== *)

Lemma frame3_columns (dates : list date) (temps precips : list Q) :
  length temps = length dates -> length precips = length dates ->
  exists df,
    frame3 dates temps precips = Some df
    /\ map sim_date df = dates
    /\ map sim_max_temp df = temps
    /\ map sim_rainfall df = precips.
Proof.
  revert temps precips. induction dates as [|d ds IH]; intros [|t ts] [|p ps] Ht Hp;
    try discriminate.
  - by exists [].
  - cbn in Ht, Hp. destruct (IH ts ps) as (df & Hf & H1 & H2 & H3); [lia|lia|].
    exists (mkSimRow d t p :: df). cbn. rewrite Hf. by rewrite H1, H2, H3.
Qed.

Lemma comprehension_dates_ok (event_start : date) (offsets : list Z) :
  (forall i, i ∈ offsets ->
     Z.abs i <= MAX_DELTA_DAYS /\ valid_date (event_start + i)) ->
  comprehension_dates event_start offsets = Ok (map (fun i => event_start + i) offsets).
Proof.
  induction offsets as [|i rest IH]; intros Hok; [reflexivity|].
  cbn [comprehension_dates map].
  destruct (Hok i) as [H1 H2]; [left|].
  rewrite timedelta_ok, date_add_ok by done.
  rewrite IH; [reflexivity|]. intros j Hj. apply Hok. by right.
Qed.

Lemma event_days_in_range (event_start event_end : date) (i : Z) :
  valid_date event_start -> valid_date event_end ->
  i ∈ range 0 (days_between event_end event_start + 1) ->
  Z.abs i <= MAX_DELTA_DAYS /\ valid_date (event_start + i).
Proof.
  unfold range, days_between, valid_date, MINORDINAL, MAXORDINAL, MAX_DELTA_DAYS.
  intros Hs He Hi. apply elem_of_seqZ in Hi. lia.
Qed.

Section SimulateFacts.
Context {R : Type}.
Variable sample : DataFrame -> R -> Row * R.
Variable uniform : Q -> Q -> R -> Q * R.
Variable round2 : Q -> Q.

Local Abbreviation loop := (sampling_loop sample uniform round2).

(** The two lists grow by one entry per day. *)
Lemma sampling_loop_lengths (hist_df : DataFrame) (days : list Z) (ts ps : list Q)
    (r : R) :
  length (loop hist_df days ts ps r).1.1 = (length ts + length days)%nat
  /\ length (loop hist_df days ts ps r).1.2 = (length ps + length days)%nat.
Proof.
  revert ts ps r. induction days as [|d rest IH]; intros ts ps r.
  - cbn. lia.
  - cbn [sampling_loop]. cbv zeta.
    destruct (IH (ts ++ [round2 (temperature_2m_max (sample hist_df r).1
                                 + (uniform (-3)%Q 3%Q (sample hist_df r).2).1)%Q])
                 (ps ++ [round2 (max0 (precipitation_sum (sample hist_df r).1
                                       + (uniform (-2)%Q 2%Q
                                            (uniform (-3)%Q 3%Q
                                               (sample hist_df r).2).2).1)%Q)])
                 (uniform (-2)%Q 2%Q (uniform (-3)%Q 3%Q (sample hist_df r).2).2).2)
      as [H1 H2].
    rewrite H1, H2, !length_app. cbn [length]. lia.
Qed.

(** A property of what is appended holds of all entries. *)
Lemma sampling_loop_entries (PT PP : Q -> Prop) (hist_df : DataFrame) (days : list Z)
    (ts ps : list Q) (r : R) :
  (forall r', PT (round2 (temperature_2m_max (sample hist_df r').1
                          + (uniform (-3)%Q 3%Q (sample hist_df r').2).1)%Q)) ->
  (forall r' r'', PP (round2 (max0 (precipitation_sum (sample hist_df r').1
                                    + (uniform (-2)%Q 2%Q r'').1)%Q))) ->
  Forall PT ts -> Forall PP ps ->
  Forall PT (loop hist_df days ts ps r).1.1 /\ Forall PP (loop hist_df days ts ps r).1.2.
Proof.
  intros HT HP. revert ts ps r. induction days as [|d rest IH]; intros ts ps r Hts Hps.
  - done.
  - cbn [sampling_loop]. cbv zeta. apply IH.
    + apply Forall_app. split; [exact Hts|]. constructor; [apply HT|constructor].
    + apply Forall_app. split; [exact Hps|]. constructor; [apply HP|constructor].
Qed.

(** The frame of a call with data and valid dates: one row per day. *)
Lemma simulate_future_forecast_run (hist_df : DataFrame) (event_start event_end : date)
    (r : R) :
  empty hist_df = false -> valid_date event_start -> valid_date event_end ->
  exists df,
    simulate_future_forecast sample uniform round2 hist_df event_start event_end r
    = (df, (loop hist_df (range 0 (days_between event_end event_start + 1)) [] [] r).2)
    /\ map sim_date df
       = map (fun i => event_start + i)
           (range 0 (days_between event_end event_start + 1))
    /\ map sim_max_temp df
       = (loop hist_df (range 0 (days_between event_end event_start + 1)) [] [] r).1.1
    /\ map sim_rainfall df
       = (loop hist_df (range 0 (days_between event_end event_start + 1)) [] [] r).1.2.
Proof.
  intros Hne Hs He. unfold simulate_future_forecast. rewrite Hne. cbv zeta.
  rewrite comprehension_dates_ok by (intros i Hi; by eapply event_days_in_range).
  destruct (sampling_loop_lengths hist_df
              (range 0 (days_between event_end event_start + 1)) [] [] r) as [H1 H2].
  destruct (frame3_columns
              (map (fun i => event_start + i)
                 (range 0 (days_between event_end event_start + 1)))
              (loop hist_df (range 0 (days_between event_end event_start + 1)) [] [] r).1.1
              (loop hist_df (range 0 (days_between event_end event_start + 1)) [] [] r).1.2)
    as (df & Hf & Hd & Ht & Hp).
  - rewrite H1, length_map. reflexivity.
  - rewrite H2, length_map. reflexivity.
  - rewrite Hf. exists df. done.
Qed.

End SimulateFacts.

Lemma frame3_Some_columns (dates : list date) (temps precips : list Q)
    (df : list SimRow) :
  frame3 dates temps precips = Some df ->
  map sim_date df = dates /\ map sim_max_temp df = temps /\ map sim_rainfall df = precips.
Proof.
  revert temps precips df.
  induction dates as [|d ds IH]; intros [|t ts] [|p ps] df; cbn; try discriminate.
  - by intros [= <-].
  - destruct (frame3 ds ts ps) as [df'|] eqn:E; [|discriminate].
    intros [= <-]. destruct (IH _ _ _ E) as (H1 & H2 & H3).
    cbn [map sim_date sim_max_temp sim_rainfall]. by rewrite H1, H2, H3.
Qed.

Lemma max0_nonneg (x : Q) : (0 <= max0 x)%Q.
Proof.
  unfold max0. destruct (Qgtb x 0) eqn:E; [|apply Qle_refl].
  apply Qgtb_true in E. by apply Qlt_le_weak.
Qed.

Lemma round_cents_nonneg (x : Q) : (0 <= x)%Q -> (0 <= round_cents x)%Q.
Proof.
  intros Hx. unfold round_cents. cbv zeta.
  assert (Hy : (0 <= x * 100)%Q).
  { apply Qmult_le_0_compat; [exact Hx|discriminate]. }
  assert (Hq : 0 <= Qfloor (x * 100)%Q).
  { change 0 with (Qfloor 0). by apply Qfloor_resp_le. }
  set (q := Qfloor (x * 100)%Q) in *.
  destruct (if Z.even _ then _ else _); unfold Qle; cbn [Qnum Qden]; lia.
Qed.

(** X10. With data in the history and valid dates,
    [simulate_future_forecast] returns one row per day of the event, both
    ends included, dated [event_start], the day after, and so on up to
    [event_end]. *)
Theorem simulate_future_forecast_days {R} (sample : DataFrame -> R -> Row * R)
    (uniform : Q -> Q -> R -> Q * R) (round2 : Q -> Q) (hist_df : DataFrame)
    (event_start event_end : date) (r : R) :
  empty hist_df = false -> valid_date event_start -> valid_date event_end ->
  map sim_date
    (simulate_future_forecast sample uniform round2 hist_df event_start event_end r).1
  = map (fun i => event_start + i) (seqZ 0 (event_end - event_start + 1))
  /\ length
       (simulate_future_forecast sample uniform round2 hist_df event_start event_end r).1
     = Z.to_nat (event_end - event_start + 1).
Proof.
  intros Hne Hs He.
  destruct (simulate_future_forecast_run sample uniform round2 hist_df event_start
              event_end r Hne Hs He) as (df & -> & Hd & _).
  cbn [fst]. unfold range, days_between in Hd.
  replace (event_end - event_start + 1 - 0) with (event_end - event_start + 1) in Hd
    by lia.
  split; [exact Hd|].
  rewrite <- (length_map sim_date), Hd, length_map, length_seqZ. reflexivity.
Qed.

Lemma simulate_future_forecast_days_witness :
  map sim_date
    (simulate_future_forecast sample_first uniform_low round_cents (hot_rows 2)
       100 102 0%nat).1 = [100; 101; 102].
Proof.
  assert (V100 : valid_date 100) by (unfold valid_date, MINORDINAL, MAXORDINAL; lia).
  assert (V102 : valid_date 102) by (unfold valid_date, MINORDINAL, MAXORDINAL; lia).
  destruct (simulate_future_forecast_days sample_first uniform_low round_cents
              (hot_rows 2) 100 102 0%nat eq_refl V100 V102) as [Hd _].
  exact Hd.
Defined.

(** X11. With valid dates, the simulated frame is empty exactly when the
    history is empty or the event ends before it starts, and in both
    cases no random number is drawn. *)
Theorem simulate_future_forecast_empty_iff {R} (sample : DataFrame -> R -> Row * R)
    (uniform : Q -> Q -> R -> Q * R) (round2 : Q -> Q) (hist_df : DataFrame)
    (event_start event_end : date) (r : R) :
  valid_date event_start -> valid_date event_end ->
  ((simulate_future_forecast sample uniform round2 hist_df event_start event_end r).1 = []
   <-> empty hist_df = true \/ event_end < event_start)
  /\ (empty hist_df = true \/ event_end < event_start ->
      (simulate_future_forecast sample uniform round2 hist_df event_start event_end r).2
      = r).
Proof.
  intros Hs He. destruct (empty hist_df) eqn:Hne.
  - unfold simulate_future_forecast. rewrite Hne. split; [split; [by left|done]|done].
  - destruct (simulate_future_forecast_run sample uniform round2 hist_df event_start
                event_end r Hne Hs He) as (df & -> & Hd & _).
    cbn [fst snd]. unfold range, days_between in *.
    split; [split|].
    + intros ->. right. cbn in Hd.
      destruct (Z_lt_le_dec event_end event_start) as [Hlt|Hge]; [exact Hlt|].
      rewrite seqZ_cons in Hd by lia. discriminate.
    + intros [Hf|Hlt]; [discriminate|].
      rewrite seqZ_nil in Hd by lia. by destruct df.
    + intros [Hf|Hlt]; [discriminate|]. by rewrite seqZ_nil by lia.
Qed.

Lemma simulate_future_forecast_empty_iff_witness :
  simulate_future_forecast sample_first uniform_low round_cents (hot_rows 2) 102 100
    0%nat = ([], 0%nat).
Proof.
  assert (V100 : valid_date 100) by (unfold valid_date, MINORDINAL, MAXORDINAL; lia).
  assert (V102 : valid_date 102) by (unfold valid_date, MINORDINAL, MAXORDINAL; lia).
  destruct (simulate_future_forecast_empty_iff sample_first uniform_low round_cents
              (hot_rows 2) 102 100 0%nat V102 V100) as [Hiff Hstate].
  assert (Hrev : empty (hot_rows 2) = true \/ 100 < 102) by (right; lia).
  apply injective_projections; [apply Hiff, Hrev|apply Hstate, Hrev].
Defined.

(** X12. Provided [sample] returns a row of the frame it is given,
    [uniform a b] a number between [a] and [b], and rounding keeps a
    number that is not negative so: in every simulated row the rainfall
    is not negative, and the temperature is the rounding of a
    temperature of the history moved by at most 3 degrees. *)
Theorem simulate_future_forecast_values {R} (sample : DataFrame -> R -> Row * R)
    (uniform : Q -> Q -> R -> Q * R) (round2 : Q -> Q) (hist_df : DataFrame)
    (event_start event_end : date) (r : R) :
  (forall df r', empty df = false -> (sample df r').1 ∈ df) ->
  (forall a b r', (a <= b)%Q -> (a <= (uniform a b r').1 <= b)%Q) ->
  (forall x, (0 <= x)%Q -> (0 <= round2 x)%Q) ->
  Forall
    (fun row =>
       (0 <= sim_rainfall row)%Q
       /\ exists h j,
            h ∈ hist_df /\ (-3 <= j <= 3)%Q
            /\ sim_max_temp row = round2 (temperature_2m_max h + j)%Q)
    (simulate_future_forecast sample uniform round2 hist_df event_start event_end r).1.
Proof.
  intros Hsample Huniform Hround. unfold simulate_future_forecast.
  destruct (empty hist_df) eqn:Hne; [constructor|]. cbv zeta.
  destruct (comprehension_dates _ _) as [dates|e]; [|constructor].
  destruct (frame3 _ _ _) as [df|] eqn:Hf; [|constructor]. cbn [fst].
  apply frame3_Some_columns in Hf as (_ & Ht & Hp).
  destruct (sampling_loop_entries sample uniform round2
              (fun t => exists h j, h ∈ hist_df /\ (-3 <= j <= 3)%Q
                                    /\ t = round2 (temperature_2m_max h + j)%Q)
              (fun p => (0 <= p)%Q)
              hist_df (range 0 (days_between event_end event_start + 1)) [] [] r)
    as [HT HP].
  - intros r'. eexists _, _. split; [by apply Hsample|].
    split; [by apply Huniform|reflexivity].
  - intros r' r''. apply Hround, max0_nonneg.
  - constructor.
  - constructor.
  - rewrite <- Ht in HT. rewrite <- Hp in HP.
    apply Forall_forall. intros row Hrow. split.
    + apply (proj1 (Forall_forall _ _) HP (sim_rainfall row)).
      by apply (list_elem_of_fmap_2 sim_rainfall).
    + apply (proj1 (Forall_forall _ _) HT (sim_max_temp row)).
      by apply (list_elem_of_fmap_2 sim_max_temp).
Qed.

Lemma simulate_future_forecast_values_witness :
  Forall
    (fun row =>
       (0 <= sim_rainfall row)%Q
       /\ exists h j,
            h ∈ hot_rows 2 /\ (-3 <= j <= 3)%Q
            /\ sim_max_temp row = round_cents (temperature_2m_max h + j)%Q)
    (simulate_future_forecast sample_first uniform_low round_cents (hot_rows 2)
       100 102 0%nat).1.
Proof.
  apply (simulate_future_forecast_values sample_first uniform_low round_cents
           (hot_rows 2) 100 102 0%nat).
  - intros [|row df] r' Hne; [discriminate|]. cbn. left.
  - intros a b r' Hab. cbn. split; [apply Qle_refl|exact Hab].
  - apply round_cents_nonneg.
Defined.

(** ** The search and the simulation together *)

Lemma for_each_best_start_valid {W} (fetch : Source W) (latitude longitude : Q)
    (search_start : date) (hot_thresh rain_thresh : Q) (event_duration : Z)
    (offsets : list Z) (st st' : Locals) (w w' : W) :
  (forall bs, best_start st = Some bs -> valid_date bs) ->
  for_each (loop_body fetch latitude longitude search_start hot_thresh rain_thresh
              event_duration) offsets st w = (Ok st', w') ->
  forall bs, best_start st' = Some bs -> valid_date bs.
Proof.
  revert st w. induction offsets as [|off rest IH]; intros st w Hst Hrun.
  - cbn in Hrun. by injection Hrun as <- <-.
  - rewrite for_each_cons in Hrun.
    destruct (loop_body_cases fetch latitude longitude search_start hot_thresh
                rain_thresh event_duration st off w)
      as [[e He] | (_ & _ & Hcs & _ & Hok)].
    + rewrite He in Hrun. discriminate.
    + rewrite Hok in Hrun. eapply IH; [|exact Hrun].
      intros bs. unfold step. destruct (empty _); [apply Hst|].
      destruct (score_lt _ _); [|apply Hst]. cbn. by intros [= <-].
Qed.

Lemma find_best_dates_window_valid {W} (fetch : Source W) (latitude longitude : Q)
    (search_start search_end : date) (hot_thresh rain_thresh : Q)
    (event_duration : Z) (w : W) (bs be : date) :
  (find_best_dates fetch latitude longitude search_start search_end hot_thresh
     rain_thresh event_duration w).1 = (Some bs, Some be) ->
  valid_date bs /\ valid_date be /\ be = bs + (event_duration - 1).
Proof.
  destruct (clamp_search_end_cases search_start search_end w) as [[e He] | Hc].
  { by rewrite (find_best_dates_clamp_raises _ _ _ _ _ _ _ _ _ _ He). }
  rewrite (find_best_dates_run _ _ _ _ _ _ _ _ _ _ Hc).
  destruct (empty _); [discriminate|].
  destruct (for_each _ _ _ _) as [[st|e] w2] eqn:Hrun; [|discriminate].
  cbn [fst]. unfold window_of.
  destruct (best_start st) as [b|] eqn:Hb; [|discriminate].
  destruct (timedelta _) as [td|] eqn:Etd; [|discriminate].
  destruct (date_add b td) as [o|] eqn:Eo; [|discriminate].
  intros [= -> <-]. apply timedelta_inv in Etd as [-> _].
  apply date_add_inv in Eo as [-> Hbe].
  split; [|done].
  eapply for_each_best_start_valid; [|exact Hrun|exact Hb]. discriminate.
Qed.

(** X13. The window [find_best_dates] returns and
    [simulate_future_forecast] agree on the length of the event: with
    data in the history, the simulation over a returned window has
    exactly [event_duration] rows, whatever the source and the random
    draws. *)
Theorem simulate_best_window_has_event_duration_rows {W R} (fetch : Source W)
    (latitude longitude : Q) (search_start search_end : date)
    (hot_thresh rain_thresh : Q) (event_duration : Z) (w : W)
    (sample : DataFrame -> R -> Row * R) (uniform : Q -> Q -> R -> Q * R)
    (round2 : Q -> Q) (hist_df : DataFrame) (r : R) (bs be : date) :
  empty hist_df = false ->
  (find_best_dates fetch latitude longitude search_start search_end hot_thresh
     rain_thresh event_duration w).1 = (Some bs, Some be) ->
  length (simulate_future_forecast sample uniform round2 hist_df bs be r).1
  = Z.to_nat event_duration.
Proof.
  intros Hne Hwin.
  apply find_best_dates_window_valid in Hwin as (Hbs & Hbe & ->).
  destruct (simulate_future_forecast_run sample uniform round2 hist_df bs
              (bs + (event_duration - 1)) r Hne Hbs Hbe) as (df & -> & Hd & _).
  cbn [fst]. rewrite <- (length_map sim_date), Hd, length_map.
  unfold range, days_between. rewrite length_seqZ. f_equal. lia.
Qed.

Lemma simulate_best_window_has_event_duration_rows_witness :
  length (simulate_future_forecast sample_first uniform_low round_cents (hot_rows 2)
            103 107 0%nat).1 = Z.to_nat 5.
Proof.
  apply (simulate_best_window_has_event_duration_rows (counting stub_tie) 0%Q 0%Q
           100 115 32%Q 10%Q 5 (tt, []) sample_first uniform_low round_cents
           (hot_rows 2) 0%nat 103 107).
  - reflexivity.
  - reflexivity.
Defined.

(* ===================================================================== *)
(** * Properties of get_immediate_forecast *)
(* ===================================================================== *)

Lemma frame4_columns (c1 c2 c3 c4 : list Cell) :
  length c2 = length c1 -> length c3 = length c1 -> length c4 = length c1 ->
  exists df,
    frame4 c1 c2 c3 c4 = Some df
    /\ map fc_date df = c1 /\ map fc_max_temp df = c2
    /\ map fc_min_temp df = c3 /\ map fc_precipitation df = c4.
Proof.
  revert c2 c3 c4.
  induction c1 as [|x1 r1 IH]; intros [|x2 r2] [|x3 r3] [|x4 r4] H2 H3 H4;
    try discriminate.
  - by exists [].
  - cbn in H2, H3, H4.
    destruct (IH r2 r3 r4) as (df & Hf & E1 & E2 & E3 & E4); [lia|lia|lia|].
    exists (mkForecastRow x1 x2 x3 x4 :: df). cbn. rewrite Hf.
    by rewrite E1, E2, E3, E4.
Qed.

Lemma frame4_Some_lengths (c1 c2 c3 c4 : list Cell) (df : list ForecastRow) :
  frame4 c1 c2 c3 c4 = Some df ->
  length c2 = length c1 /\ length c3 = length c1 /\ length c4 = length c1
  /\ length df = length c1.
Proof.
  revert c2 c3 c4 df.
  induction c1 as [|x1 r1 IH]; intros [|x2 r2] [|x3 r3] [|x4 r4] df; cbn;
    try discriminate.
  - by intros [= <-].
  - destruct (frame4 r1 r2 r3 r4) as [df'|] eqn:E; [|discriminate].
    intros [= <-]. destruct (IH _ _ _ _ E) as (H2 & H3 & H4 & H5). cbn. lia.
Qed.

(** X14. When the forecast payload has [daily] with the four arrays
    [time], [temperature_2m_max], [temperature_2m_min] and
    [precipitation_sum] of one length, the frame returned has that many
    rows and its four columns are exactly those arrays. *)
Theorem immediate_forecast_columns {W} (http : Q -> Q -> W -> ForecastResponse * W)
    (latitude longitude : Q) (w : W) (daily : gmap string (list Cell))
    (time tmax tmin precip : list Cell) :
  (http latitude longitude w).1 = ForecastJson (Some daily) ->
  daily !! "time" = Some time ->
  daily !! "temperature_2m_max" = Some tmax ->
  daily !! "temperature_2m_min" = Some tmin ->
  daily !! "precipitation_sum" = Some precip ->
  length tmax = length time -> length tmin = length time ->
  length precip = length time ->
  map fc_date (get_immediate_forecast http latitude longitude w).1 = time
  /\ map fc_max_temp (get_immediate_forecast http latitude longitude w).1 = tmax
  /\ map fc_min_temp (get_immediate_forecast http latitude longitude w).1 = tmin
  /\ map fc_precipitation (get_immediate_forecast http latitude longitude w).1 = precip
  /\ length (get_immediate_forecast http latitude longitude w).1 = length time.
Proof.
  intros Hr H1 H2 H3 H4 L2 L3 L4. unfold get_immediate_forecast.
  destruct (http latitude longitude w) as [resp w']. cbn [fst] in Hr. subst resp.
  unfold forecast_frame. rewrite H1, H2, H3, H4.
  destruct (frame4_columns time tmax tmin precip L2 L3 L4)
    as (df & -> & E1 & E2 & E3 & E4).
  cbn [fst]. split; [exact E1|split; [exact E2|split; [exact E3|split; [exact E4|]]]].
  by rewrite <- E1, length_map.
Qed.

Lemma immediate_forecast_columns_witness :
  map fc_date
    (get_immediate_forecast (forecast_http (Some daily_two_days)) 0%Q 0%Q tt).1
  = [CStr "2025-10-04"; CStr "2025-10-05"]
  /\ map fc_min_temp
       (get_immediate_forecast (forecast_http (Some daily_two_days)) 0%Q 0%Q tt).1
     = [CNum 12%Q; CNull].
Proof.
  destruct (immediate_forecast_columns (forecast_http (Some daily_two_days)) 0%Q 0%Q tt
              daily_two_days
              [CStr "2025-10-04"; CStr "2025-10-05"] [CNum 21%Q; CNum 19%Q]
              [CNum 12%Q; CNull] [CNum 0%Q; CNum (3 # 2)%Q])
    as (E1 & _ & E3 & _); try reflexivity.
  split; [exact E1|exact E3].
Defined.

(** X15. [get_immediate_forecast] returns rows only for a payload that
    was decoded, has [daily], has all four arrays in it, of one length
    and not empty; a failed request, a missing key or arrays of
    different lengths give the empty frame. *)
Theorem immediate_forecast_rows_need_full_payload {W}
    (http : Q -> Q -> W -> ForecastResponse * W) (latitude longitude : Q) (w : W) :
  (get_immediate_forecast http latitude longitude w).1 <> [] ->
  exists daily time tmax tmin precip,
    (http latitude longitude w).1 = ForecastJson (Some daily)
    /\ daily !! "time" = Some time
    /\ daily !! "temperature_2m_max" = Some tmax
    /\ daily !! "temperature_2m_min" = Some tmin
    /\ daily !! "precipitation_sum" = Some precip
    /\ length tmax = length time /\ length tmin = length time
    /\ length precip = length time /\ time <> [].
Proof.
  unfold get_immediate_forecast.
  destruct (http latitude longitude w) as [[|[daily|]] w']; cbn [fst]; try done.
  unfold forecast_frame.
  destruct (daily !! "time") as [time|] eqn:H1; [|done].
  destruct (daily !! "temperature_2m_max") as [tmax|] eqn:H2; [|done].
  destruct (daily !! "temperature_2m_min") as [tmin|] eqn:H3; [|done].
  destruct (daily !! "precipitation_sum") as [precip|] eqn:H4; [|done].
  destruct (frame4 time tmax tmin precip) as [df|] eqn:Hf; [|done].
  cbn [fst]. intros Hne.
  destruct (frame4_Some_lengths _ _ _ _ _ Hf) as (L2 & L3 & L4 & L5).
  exists daily, time, tmax, tmin, precip.
  repeat (split; [done|]).
  intros ->. by destruct df.
Qed.

Lemma immediate_forecast_rows_need_full_payload_witness :
  exists daily time tmax tmin precip,
    (forecast_http (Some daily_two_days) 0%Q 0%Q tt).1 = ForecastJson (Some daily)
    /\ daily !! "time" = Some time
    /\ daily !! "temperature_2m_max" = Some tmax
    /\ daily !! "temperature_2m_min" = Some tmin
    /\ daily !! "precipitation_sum" = Some precip
    /\ length tmax = length time /\ length tmin = length time
    /\ length precip = length time /\ time <> [].
Proof.
  apply (immediate_forecast_rows_need_full_payload (forecast_http (Some daily_two_days))
           0%Q 0%Q tt).
  vm_compute. discriminate.
Defined.

(** Arrays of different lengths: no row. *)
Example immediate_forecast_short_column :
  (get_immediate_forecast (forecast_http (Some daily_short_column)) 0%Q 0%Q tt).1 = [].
Proof. reflexivity. Qed.

(* ===================================================================== *)
(** * Properties of clean_text_for_pdf *)
(* ===================================================================== *)

(** ** Stripping *)

Lemma lstrip_suffix (s : text) : lstrip s `suffix_of` s.
Proof.
  induction s as [|c s IH]; [done|]. cbn. destruct (isspace c); [|done].
  by apply suffix_cons_r.
Qed.

Lemma lstrip_head (s : text) (c : N) : head (lstrip s) = Some c -> isspace c = false.
Proof.
  induction s as [|x s IH]; [done|]. cbn. destruct (isspace x) eqn:E; [exact IH|].
  cbn. by intros [= <-].
Qed.

Lemma lstrip_id (s : text) :
  (forall c, head s = Some c -> isspace c = false) -> lstrip s = s.
Proof.
  destruct s as [|x s]; [done|]. intros H. cbn. by rewrite (H x eq_refl).
Qed.

Lemma lstrip_snoc (s : text) (c : N) :
  isspace c = false -> lstrip (s ++ [c]) = lstrip s ++ [c].
Proof.
  intros Hc. induction s as [|x s IH]; cbn; [by rewrite Hc|].
  by destruct (isspace x).
Qed.

Lemma elem_of_lstrip (s : text) (c : N) : c ∈ lstrip s -> c ∈ s.
Proof.
  intros Hc. destruct (lstrip_suffix s) as [k ->]. apply elem_of_app. by right.
Qed.

Lemma elem_of_rstrip (s : text) (c : N) : c ∈ rstrip s -> c ∈ s.
Proof.
  unfold rstrip. intros Hc. rewrite elem_of_reverse in Hc.
  apply elem_of_lstrip in Hc. by rewrite elem_of_reverse in Hc.
Qed.

Lemma elem_of_strip (s : text) (c : N) : c ∈ strip s -> c ∈ s.
Proof. unfold strip. intros Hc. by apply elem_of_lstrip, elem_of_rstrip. Qed.

Lemma rstrip_last (s : text) (c : N) : last (rstrip s) = Some c -> isspace c = false.
Proof. unfold rstrip. rewrite last_reverse. apply lstrip_head. Qed.

Lemma rstrip_cons (s : text) (c : N) :
  isspace c = false -> rstrip (c :: s) = c :: rstrip s.
Proof.
  intros Hc. unfold rstrip. rewrite reverse_cons, lstrip_snoc by done.
  by rewrite reverse_snoc.
Qed.

Lemma rstrip_id (s : text) :
  (forall c, last s = Some c -> isspace c = false) -> rstrip s = s.
Proof.
  intros H. unfold rstrip. rewrite lstrip_id; [apply reverse_involutive|].
  intros c. rewrite head_reverse. apply H.
Qed.

Lemma strip_ends (s : text) :
  (forall c, head (strip s) = Some c -> isspace c = false)
  /\ (forall c, last (strip s) = Some c -> isspace c = false).
Proof.
  split; [|apply rstrip_last].
  unfold strip. intros c. destruct (lstrip s) as [|x l] eqn:E; [done|].
  assert (Hx : isspace x = false) by (apply (lstrip_head s); by rewrite E).
  rewrite rstrip_cons by done. cbn. by intros [= <-].
Qed.

Lemma strip_id (s : text) :
  (forall c, head s = Some c -> isspace c = false) ->
  (forall c, last s = Some c -> isspace c = false) ->
  strip s = s.
Proof. intros Hh Hl. unfold strip. by rewrite lstrip_id, rstrip_id. Qed.

(** ** Replacing *)

Lemma starts_with_head (h c : N) (old s : text) :
  h <> c -> starts_with (h :: old) (c :: s) = false.
Proof. intros Hne. cbn. by rewrite (proj2 (N.eqb_neq h c) Hne). Qed.

(** A pattern whose first character does not occur leaves the text. *)
Lemma replace_absent (h : N) (old new s : text) :
  h ∉ s -> replace (h :: old) new s = s.
Proof.
  unfold replace. induction s as [|c s IH]; [done|]. intros Hn.
  cbn [replace_go]. rewrite starts_with_head.
  - f_equal. apply IH. intros Hin. apply Hn. by right.
  - intros ->. apply Hn. left.
Qed.

(** Replacing a single character, character by character. *)
Lemma replace_single (h : N) (new s : text) :
  replace [h] new s = flat_map (fun c => if (h =? c)%N then new else [c]) s.
Proof.
  unfold replace. induction s as [|c s IH]; [done|].
  cbn [replace_go flat_map starts_with length]. rewrite andb_true_r.
  destruct (h =? c)%N; cbn [Nat.sub]; by rewrite IH.
Qed.

Lemma replace_single_gone (h : N) (new s : text) :
  h ∉ new -> h ∉ replace [h] new s.
Proof.
  intros Hnew. rewrite replace_single. induction s as [|c s IH]; cbn [flat_map].
  - apply not_elem_of_nil.
  - intros Hin. apply elem_of_app in Hin as [Hin|Hin]; [|by apply IH].
    destruct (h =? c)%N eqn:E; [by apply Hnew|].
    apply list_elem_of_singleton in Hin. apply N.eqb_neq in E. congruence.
Qed.

Lemma elem_of_latin1_ignore (s : text) (c : N) :
  c ∈ latin1_ignore s <-> c ∈ s /\ (c <= 0xff)%N.
Proof. unfold latin1_ignore. rewrite list_elem_of_filter. tauto. Qed.

Lemma clean_text_for_pdf_latin1 (t : text) :
  Forall (fun c => (c <= 0xff)%N) (clean_text_for_pdf t).
Proof.
  unfold clean_text_for_pdf. cbv zeta.
  apply Forall_forall. intros c Hc.
  apply elem_of_strip, elem_of_latin1_ignore in Hc. tauto.
Qed.

Lemma clean_text_for_pdf_ends (t : text) :
  (forall c, head (clean_text_for_pdf t) = Some c -> isspace c = false)
  /\ (forall c, last (clean_text_for_pdf t) = Some c -> isspace c = false).
Proof. unfold clean_text_for_pdf. cbv zeta. apply strip_ends. Qed.

(** X16. Whatever the text, the result of [clean_text_for_pdf] has only
    characters of Latin-1 (code points up to 255), no degree sign, and
    neither starts nor ends with white space. *)
Theorem clean_text_for_pdf_is_printable (t : text) :
  Forall (fun c => (c <= 0xff)%N) (clean_text_for_pdf t)
  /\ (DEGREE ∉ clean_text_for_pdf t)
  /\ (forall c, head (clean_text_for_pdf t) = Some c -> isspace c = false)
  /\ (forall c, last (clean_text_for_pdf t) = Some c -> isspace c = false).
Proof.
  split; [apply clean_text_for_pdf_latin1|split; [|apply clean_text_for_pdf_ends]].
  unfold clean_text_for_pdf. cbv zeta.
  set (cleaned := replace (DEGREE :: text_of "C") (text_of " deg C") _).
  - intros Hc. apply elem_of_strip, elem_of_latin1_ignore in Hc as [Hc _].
    revert Hc. apply replace_single_gone.
    intros Hin. vm_compute in Hin.
    repeat (apply elem_of_cons in Hin as [Hin|Hin]; [discriminate|]).
    by apply elem_of_nil in Hin.
Qed.

(** ** Text that needs no cleaning *)

(** Without an occurrence of the pattern nothing is replaced. *)
Lemma replace_no_occurrence (h : N) (old new s : text) :
  ~ occurs (h :: old) s -> replace (h :: old) new s = s.
Proof.
  unfold replace. induction s as [|c s IH]; [done|]. intros Hn.
  cbn [replace_go].
  destruct (starts_with (h :: old) (c :: s)) eqn:E.
  - exfalso. apply Hn. by exists 0%nat.
  - f_equal. apply IH. intros [k Hk]. apply Hn. by exists (S k).
Qed.

Lemma occurs_head (h : N) (old s : text) : occurs (h :: old) s -> h ∈ s.
Proof.
  intros [k Hk]. destruct (drop k s) as [|c rest] eqn:E; [discriminate|].
  cbn in Hk. apply andb_true_iff in Hk as [Hk _]. apply N.eqb_eq in Hk as ->.
  assert (Hin : c ∈ drop k s) by (rewrite E; left).
  destruct (suffix_drop s k) as [pre Hpre]. rewrite Hpre.
  apply elem_of_app. by right.
Qed.

Lemma emoji_map_heads :
  Forall (fun item => exists h rest, item.1 = h :: rest /\ (0xff < h)%N) emoji_map.
Proof.
  unfold emoji_map. apply Forall_fmap, Forall_forall. intros emoji Hin.
  repeat (apply elem_of_cons in Hin as [-> | Hin];
          [eexists _, _; split; [reflexivity|reflexivity]|]).
  by apply elem_of_nil in Hin.
Qed.

Lemma fold_replace_absent (items : list (text * text)) (t : text) :
  Forall (fun item => exists h rest, item.1 = h :: rest /\ h ∉ t) items ->
  fold_left (fun cleaned item => replace item.1 item.2 cleaned) items t = t.
Proof.
  induction 1 as [|item items (h & rest & Hitem & Hh) _ IH]; [done|].
  cbn [fold_left]. rewrite Hitem, replace_no_occurrence; [exact IH|].
  intros Hocc. by apply occurs_head in Hocc.
Qed.

(** X17. Text that is Latin-1 throughout, has no ["**"], no degree sign
    and no white space at either end comes out of [clean_text_for_pdf] as
    it went in. *)
Theorem clean_text_for_pdf_keeps_plain_text (t : text) :
  Forall (fun c => (c <= 0xff)%N) t ->
  ~ occurs [STAR; STAR] t ->
  DEGREE ∉ t ->
  (forall c, head t = Some c -> isspace c = false) ->
  (forall c, last t = Some c -> isspace c = false) ->
  clean_text_for_pdf t = t.
Proof.
  intros Hlatin Hstars Hdeg Hhead Hlast. unfold clean_text_for_pdf. cbv zeta.
  rewrite fold_replace_absent.
  - rewrite (replace_no_occurrence STAR [STAR]) by exact Hstars.
    rewrite (replace_no_occurrence DEGREE (text_of "C"))
      by (intros Hocc; by apply occurs_head in Hocc).
    rewrite (replace_no_occurrence DEGREE [])
      by (intros Hocc; by apply occurs_head in Hocc).
    replace (latin1_ignore t) with t; [by apply strip_id|].
    clear -Hlatin. unfold latin1_ignore.
    induction Hlatin as [|c l Hc _ IH]; [done|].
    rewrite filter_cons_True by exact Hc. by f_equal.
  - eapply Forall_impl; [exact emoji_map_heads|].
    intros item (h & rest & Hitem & Hh). exists h, rest. split; [exact Hitem|].
    intros Hin. apply (proj1 (Forall_forall _ _) Hlatin) in Hin.
    apply N.lt_nge in Hh. contradiction.
Qed.

(** "Max 31.5 C * windy" is plain. *)
Lemma clean_text_for_pdf_keeps_plain_text_witness :
  clean_text_for_pdf (text_of "Max 31.5 C * windy") = text_of "Max 31.5 C * windy".
Proof.
  apply clean_text_for_pdf_keeps_plain_text.
  - apply (bool_decide_unpack
             (Forall (fun c => (c <= 0xff)%N) (text_of "Max 31.5 C * windy"))).
    vm_compute. exact I.
  - intros [k Hk].
    assert (Hlen : (k < 19)%nat \/ (19 <= k)%nat) by lia.
    destruct Hlen as [Hlt | Hge].
    + do 19 (destruct k as [|k]; [vm_compute in Hk; discriminate|]). lia.
    + rewrite drop_ge in Hk by (vm_compute; lia). discriminate.
  - apply (bool_decide_unpack (DEGREE ∉ text_of "Max 31.5 C * windy")).
    vm_compute. exact I.
  - intros c [= <-]. reflexivity.
  - intros c [= <-]. reflexivity.
Defined.

(** A star on each side of a euro sign: the sign goes last, after the
    search for ["**"], and the two stars stay. *)
Example clean_text_for_pdf_can_leave_stars :
  clean_text_for_pdf [STAR; 0x20ac; STAR]%N = [STAR; STAR].
Proof. reflexivity. Qed.

(** ** The recommendation bullets *)

(** X18. The recommendation bullets handed to the PDF are, in order, the
    points whose cleaned text is not empty, each as ["* "] followed by
    that text; every bullet is Latin-1 throughout and does not end with
    white space; without [advice_points] there is none. *)
Theorem advice_bullets_are_clean (advice_points : option (list text)) :
  advice_bullets advice_points
  = map (fun point => text_of "* " ++ clean_text_for_pdf point)
      (filter (fun point => clean_text_for_pdf point <> [])
         (default [] advice_points))
  /\ Forall
       (fun bullet =>
          Forall (fun c => (c <= 0xff)%N) bullet
          /\ forall c, last bullet = Some c -> isspace c = false)
       (advice_bullets advice_points).
Proof.
  assert (Hshape : advice_bullets advice_points
                   = map (fun point => text_of "* " ++ clean_text_for_pdf point)
                       (filter (fun point => clean_text_for_pdf point <> [])
                          (default [] advice_points))).
  { destruct advice_points as [points|]; [|done].
    change (default [] (Some points)) with points. cbn [advice_bullets].
    induction points as [|p points IH]; [done|]. cbn [flat_map].
    destruct (clean_text_for_pdf p) as [|c cleaned] eqn:E.
    - rewrite filter_cons_False by (rewrite E; tauto). exact IH.
    - rewrite filter_cons_True by (rewrite E; done). cbn [map app].
      rewrite E, IH. reflexivity. }
  split; [exact Hshape|]. rewrite Hshape.
  apply Forall_fmap, Forall_forall. intros point Hin.
  apply list_elem_of_filter in Hin as [Hne _]. unfold compose. cbv beta.
  pose proof (clean_text_for_pdf_latin1 point) as Hlatin.
  destruct (clean_text_for_pdf_ends point) as [_ Hlast].
  split.
  - apply Forall_app. split; [|exact Hlatin].
    apply (bool_decide_unpack (Forall (fun c => (c <= 0xff)%N) (text_of "* "))).
    vm_compute. exact I.
  - intros c Hc. apply Hlast.
    destruct (clean_text_for_pdf point) as [|x l]; [done|].
    by rewrite last_app_cons in Hc.
Qed.

Lemma clean_text_for_pdf_is_printable_witness :
  clean_text_for_pdf [0x20; 0x33; 0x30; 0xb0; 0x43; 0x20; 0x1f525; 0x20]%N
  = text_of "30 deg C"
  /\ isspace 0x43%N = false.
Proof.
  split; [reflexivity|].
  destruct (clean_text_for_pdf_is_printable
              [0x20; 0x33; 0x30; 0xb0; 0x43; 0x20; 0x1f525; 0x20]%N)
    as (_ & _ & _ & Hlast).
  apply Hlast. reflexivity.
Defined.

(** A point that is one emoji gives no bullet. *)
Lemma advice_bullets_are_clean_witness :
  advice_bullets (Some [[0x1f525]%N; text_of "Bring water "])
  = [text_of "* Bring water"].
Proof.
  destruct (advice_bullets_are_clean (Some [[0x1f525]%N; text_of "Bring water "]))
    as [Hshape _].
  rewrite Hshape. reflexivity.
Defined.

(* ===================================================================== *)
(** * The requests of the search *)
(* ===================================================================== *)

(** X19. With valid dates, a range that does not end before it starts and
    a duration of at least one day, every request [find_best_dates] sends
    is for the caller's coordinates and for a window inside the clamped
    range, hence inside the search range, whatever the source returns. *)
Theorem find_best_dates_requests_inside_range {W} (fetch : Source W)
    (latitude longitude : Q) (search_start search_end : date)
    (hot_thresh rain_thresh : Q) (event_duration : Z) (w : W) :
  valid_date search_start -> valid_date search_end ->
  search_start <= search_end -> 1 <= event_duration ->
  Forall
    (fun c =>
       call_latitude c = latitude /\ call_longitude c = longitude
       /\ search_start <= call_start c <= call_end c
       /\ call_end c <= clamped_end search_start search_end
       /\ call_end c <= search_end)
    (find_best_dates (instrument fetch) latitude longitude search_start search_end
       hot_thresh rain_thresh event_duration (w, [])).2.2.
Proof.
  intros Hs He Hle Hd.
  destruct (find_best_dates_log_valid fetch latitude longitude search_start hot_thresh
              rain_thresh event_duration search_end (w, []) Hs He)
    as (walked & Hpre & ->).
  pose proof (clamped_end_le search_start search_end) as [Hc1 Hc2].
  assert (Hc3 : search_start <= clamped_end search_start search_end).
  { unfold clamped_end, days_between, max_search_days. destruct (_ >? _); lia. }
  cbn [snd app]. constructor.
  { cbn [call_latitude call_longitude call_start call_end].
    repeat split; try reflexivity; lia. }
  apply Forall_forall. intros c Hin.
  apply list_elem_of_In, in_map_iff in Hin as (off & <- & Hoff).
  apply list_elem_of_In in Hoff.
  assert (Hoff' : off ∈ candidate_offsets search_start
                          (clamped_end search_start search_end) event_duration).
  { destruct Hpre as [tl ->]. apply elem_of_app. by left. }
  apply elem_of_candidate_offsets in Hoff'.
  unfold candidate_call. cbn [call_latitude call_longitude call_start call_end].
  repeat split; try reflexivity; lia.
Qed.

Lemma find_best_dates_requests_inside_range_witness :
  Forall
    (fun c =>
       call_latitude c = 0%Q /\ call_longitude c = 0%Q
       /\ 100 <= call_start c <= call_end c
       /\ call_end c <= clamped_end 100 115
       /\ call_end c <= 115)
    (find_best_dates (counting stub_tie) 0%Q 0%Q 100 115 32%Q 10%Q 5 (tt, [])).2.2.
Proof.
  apply (find_best_dates_requests_inside_range (pure_source stub_tie) 0%Q 0%Q 100 115
           32%Q 10%Q 5 tt).
  - unfold valid_date, MINORDINAL, MAXORDINAL. lia.
  - unfold valid_date, MINORDINAL, MAXORDINAL. lia.
  - lia.
  - lia.
Defined.
